(** * Apify Actor Runner: the run-lifecycle poller and its transports

    A shallow embedding of the three request layers of the repository

    - [ApifyClient] : the browser-side client that talks to the platform,
    - [ApiClient]   : the frontend client of the proxy,
    - [Server]      : the Express routes of the proxy (the wait endpoint),

    over a small model of the JavaScript values they handle and of the
    network and clock they run against. *)

From Stdlib Require Import ZArith List String Ascii Bool Lia DecimalString.
Import ListNotations.
Local Open Scope string_scope.
Local Open Scope Z_scope.

(** ** JavaScript values *)

Module JS.

(** JSON data as the code sees it after [JSON.parse], with [undefined] for
    the result of reading a property that is not there.  Numbers are the
    integral ones; an object is a finite map from keys to values, written as
    an association list with one binding per key. *)
#[warnings="-register-all"]
Inductive value : Type :=
| VUndefined
| VNull
| VBool (b : bool)
| VNum (n : Z)
| VStr (s : string)
| VArr (items : list value)
| VObj (fields : list (string * value)).

(** The classes of exception the code raises or meets: [new Error],
    [new ApiError], and the runtime's [TypeError] and [SyntaxError]. *)
Inductive errClass : Type := EError | EApiError | ETypeError | ESyntaxError.

(** An exception object: its class, its [message], and the [status] property
    when one was attached ([ApiError]'s constructor, or the proxy's
    [error.status = response.status]). *)
Record jsError : Type := mkError {
  err_class : errClass;
  err_message : string;
  err_status : option Z
}.

Inductive Result (A : Type) : Type :=
| Ok (a : A)
| Throw (e : jsError).
Arguments Ok {A} a.
Arguments Throw {A} e.

Definition newError (message : string) : jsError := mkError EError message None.
Definition newTypeError (message : string) : jsError := mkError ETypeError message None.

(** [error instanceof Error]: every class above extends [Error]. *)
Definition instanceofError (e : jsError) : bool :=
  match err_class e with
  | EError | EApiError | ETypeError | ESyntaxError => true
  end.

Definition instanceofApiError (e : jsError) : bool :=
  match err_class e with
  | EApiError => true
  | _ => false
  end.

(** [error instanceof Error ? error.message : 'Unknown error'] *)
Definition messageOrUnknown (e : jsError) : string :=
  if instanceofError e then err_message e else "Unknown error".

(** Truthiness, as [||], [!] and [if] use it. *)
Definition truthy (v : value) : bool :=
  match v with
  | VUndefined | VNull => false
  | VBool b => b
  | VNum n => negb (n =? 0)
  | VStr s => negb (String.eqb s EmptyString)
  | VArr _ | VObj _ => true
  end.

(** [a || b] *)
Definition or_else (a b : value) : value := if truthy a then a else b.

Fixpoint lookup (k : string) (fields : list (string * value)) : value :=
  match fields with
  | [] => VUndefined
  | (k', v) :: rest => if String.eqb k k' then v else lookup k rest
  end.

(** The names of the properties every object inherits from
    [Object.prototype]: read on an object that has no binding of its own for
    them, they give the inherited property and not [undefined]. *)
Definition prototypeKeys : list string :=
  ["constructor"; "hasOwnProperty"; "isPrototypeOf"; "propertyIsEnumerable";
   "toLocaleString"; "toString"; "valueOf"; "__proto__";
   "__defineGetter__"; "__defineSetter__"; "__lookupGetter__"; "__lookupSetter__"].

(** A key for which [lookup] is the property read of the code: any name but
    those. *)
Definition ownKey (k : string) : bool := negb (existsb (String.eqb k) prototypeKeys).

(** [v.k]: a [TypeError] on [undefined] and [null] (with V8's message), the
    binding on an object, [undefined] on the other values (none of the keys
    the code reads is a property of strings, numbers, booleans or arrays). *)
Definition get (v : value) (k : string) : Result value :=
  match v with
  | VUndefined =>
      Throw (newTypeError ("Cannot read properties of undefined (reading '" ++ k ++ "')"))
  | VNull =>
      Throw (newTypeError ("Cannot read properties of null (reading '" ++ k ++ "')"))
  | VObj fields => Ok (lookup k fields)
  | _ => Ok VUndefined
  end.

(** [v?.k] *)
Definition getOpt (v : value) (k : string) : value :=
  match v with
  | VObj fields => lookup k fields
  | _ => VUndefined
  end.

(** [v === 'literal'] *)
Definition strictEqStr (v : value) (s : string) : bool :=
  match v with
  | VStr t => String.eqb t s
  | _ => false
  end.

Definition decimal (n : Z) : string := NilZero.string_of_int (Z.to_int n).

Definition join (sep : string) (parts : list string) : string := String.concat sep parts.

(** String conversion, as a template literal and the [Error] constructor
    apply it, for numbers below 10^21 in magnitude (from there on the code has
    the exponent notation) and objects without a [toString] binding of their
    own. *)
Fixpoint toString (v : value) : string :=
  match v with
  | VUndefined => "undefined"
  | VNull => "null"
  | VBool true => "true"
  | VBool false => "false"
  | VNum n => decimal n
  | VStr s => s
  | VArr items =>
      join "," (map (fun x => match x with
                              | VUndefined | VNull => EmptyString
                              | _ => toString x
                              end) items)
  | VObj _ => "[object Object]"
  end.

Definition lowerAscii (c : ascii) : ascii :=
  let n := nat_of_ascii c in
  if andb (Nat.leb 65 n) (Nat.leb n 90) then ascii_of_nat (n + 32) else c.

(** [String.prototype.toLowerCase] on ASCII text (the code applies it to the
    status literals only). *)
Fixpoint toLowerCase (s : string) : string :=
  match s with
  | EmptyString => EmptyString
  | String c rest => String (lowerAscii c) (toLowerCase rest)
  end.

(** [v.toLowerCase()] *)
Definition callToLowerCase (v : value) : Result string :=
  match v with
  | VStr s => Ok (toLowerCase s)
  | VUndefined => Throw (newTypeError "Cannot read properties of undefined (reading 'toLowerCase')")
  | VNull => Throw (newTypeError "Cannot read properties of null (reading 'toLowerCase')")
  | _ => Throw (newTypeError "toLowerCase is not a function")
  end.

End JS.
Import JS.

(** ** String methods *)

Module Text.

(** The rest of [s] after [p] when [s] starts with [p]. *)
Fixpoint stripPrefix (p s : string) : option string :=
  match p, s with
  | EmptyString, _ => Some s
  | String a p', String b s' => if Ascii.eqb a b then stripPrefix p' s' else None
  | String _ _, EmptyString => None
  end.

(** [s.replace(pattern, replacement)] for a text pattern (the first occurrence
    is replaced) and a replacement without dollar patterns. *)
Fixpoint replaceFirst (pattern replacement s : string) : string :=
  match stripPrefix pattern s with
  | Some rest => replacement ++ rest
  | None =>
      match s with
      | EmptyString => EmptyString
      | String c s' => String c (replaceFirst pattern replacement s')
      end
  end.

(** [s.includes(t)] *)
Fixpoint includes (s t : string) : bool :=
  match stripPrefix t s with
  | Some _ => true
  | None =>
      match s with
      | EmptyString => false
      | String _ s' => includes s' t
      end
  end.

(** ASCII text: every character has a code below 128.  [trim] below is the
    method of the code on such text; beyond it the code also strips the white
    space of Unicode (the no-break space and others). *)
Definition asciiText (s : string) : bool :=
  forallb (fun c => Nat.ltb (nat_of_ascii c) 128) (list_ascii_of_string s).

(** White space, as [trim] sees it in ASCII text: tab, line feed, vertical
    tab, form feed, carriage return and space. *)
Definition isSpace (c : ascii) : bool :=
  let n := nat_of_ascii c in
  orb (andb (Nat.leb 9 n) (Nat.leb n 13)) (Nat.eqb n 32).

Fixpoint trimStart (s : string) : string :=
  match s with
  | EmptyString => EmptyString
  | String c rest => if isSpace c then trimStart rest else s
  end.

Fixpoint trimEnd (s : string) : string :=
  match s with
  | EmptyString => EmptyString
  | String c rest =>
      match trimEnd rest with
      | EmptyString => if isSpace c then EmptyString else String c EmptyString
      | rest' => String c rest'
      end
  end.

(** [s.trim()], for ASCII text. *)
Definition trim (s : string) : string := trimEnd (trimStart s).

Definition lineFeed : ascii := ascii_of_nat 10.

(** [s.split(sep)] for a separator of one character. *)
Fixpoint split (sep : ascii) (s : string) : list string :=
  match s with
  | EmptyString => [EmptyString]
  | String c rest =>
      if Ascii.eqb c sep then EmptyString :: split sep rest
      else
        match split sep rest with
        | [] => [String c EmptyString]
        | piece :: pieces => String c piece :: pieces
        end
  end.

(** [items.join(sep)]: [null] and [undefined] give the empty text. *)
Definition arrayJoin (sep : string) (items : list value) : string :=
  join sep (map (fun x => match x with
                          | VUndefined | VNull => EmptyString
                          | _ => toString x
                          end) items).

(** [object[k] = v] and [{...object, [k]: v}]: the binding of [k] is replaced
    where it stands, or added at the end. *)
Fixpoint assign (k : string) (v : value) (fields : list (string * value))
  : list (string * value) :=
  match fields with
  | [] => [(k, v)]
  | (k', v') :: rest =>
      if String.eqb k k' then (k, v) :: rest else (k', v') :: assign k v rest
  end.

End Text.
Import Text.

(** ** The network and the clock *)

Module Net.

(** What [fetch] is called with: the URL, the method, the [Authorization]
    header and the request body. *)
Record Request : Type := mkRequest {
  req_url : string;
  req_method : string;
  req_authorization : string;
  req_body : option value
}.

(** A response body: JSON text, given by the value [JSON.parse] produces from
    it, or text that is not JSON, given by the message of the [SyntaxError]
    the parser raises on it. *)
Inductive Body : Type :=
| Json (v : value)
| NotJson (syntaxError : string).

Record Response : Type := mkResponse {
  resp_status : Z;
  resp_statusText : string;
  resp_body : Body
}.

(** [response.ok]: the status is in the range 200-299. *)
Definition resp_ok (r : Response) : bool :=
  andb (200 <=? resp_status r) (resp_status r <=? 299).

(** The promise [fetch] returns either rejects (no HTTP response: DNS,
    connection, CORS) or resolves with a response. *)
Inductive Settled : Type :=
| Rejected (e : jsError)
| Resolved (r : Response).

Record Reply : Type := mkReply {
  latency : N;            (* milliseconds until the body has been received *)
  settled : Settled
}.

(** The observable state: the wall clock ([Date.now()], in milliseconds),
    the requests issued so far, newest first, each with the clock reading at
    which it was started, and the lines written with [console.warn]. *)
Record World : Type := mkWorld {
  now : Z;
  sent : list (Z * Request);
  console : list string
}.

(** The surroundings: how the remote answers a request (it may depend on the
    time and on everything requested before) and how late a timer fires
    (never early).  The clock does not run backwards. *)
Record Env : Type := mkEnv {
  respond : World -> Request -> Reply;
  timerLag : World -> N
}.

(** Computations that read the clock, use the network and may throw. *)
Definition M (A : Type) : Type := World -> Result A * World.

Definition ret {A} (a : A) : M A := fun w => (Ok a, w).
Definition throw {A} (e : jsError) : M A := fun w => (Throw e, w).
Definition lift {A} (r : Result A) : M A := fun w => (r, w).

Definition bind {A B} (m : M A) (k : A -> M B) : M B :=
  fun w =>
    match m w with
    | (Ok a, w') => k a w'
    | (Throw e, w') => (Throw e, w')
    end.

(** [try { m } catch (error) { handler error }] *)
Definition tryCatch {A} (m : M A) (handler : jsError -> M A) : M A :=
  fun w =>
    match m w with
    | (Ok a, w') => (Ok a, w')
    | (Throw e, w') => handler e w'
    end.

(** [await fetch(url, options)] *)
Definition fetch (env : Env) (req : Request) : M Response :=
  fun w =>
    let reply := respond env w req in
    let w' := mkWorld (now w + Z.of_N (latency reply)) ((now w, req) :: sent w) (console w) in
    match settled reply with
    | Rejected e => (Throw e, w')
    | Resolved r => (Ok r, w')
    end.

(** [JSON.parse(await response.text())] and [await response.json()] *)
Definition parseBody (r : Response) : Result value :=
  match resp_body r with
  | Json v => Ok v
  | NotJson msg => Throw (mkError ESyntaxError msg None)
  end.

(** [await new Promise(resolve => setTimeout(resolve, ms))] *)
Definition sleep (env : Env) (ms : Z) : M unit :=
  fun w => (Ok tt, mkWorld (now w + ms + Z.of_N (timerLag env w)) (sent w) (console w)).

(** [console.warn(prefix, text)] *)
Definition consoleWarn (prefix text : string) : M unit :=
  fun w => (Ok tt, mkWorld (now w) (sent w) ((prefix ++ " " ++ text) :: console w)).

End Net.
Import Net.

Declare Scope js_scope.
Delimit Scope js_scope with js.
Notation "x <- m ;; k" := (bind m (fun x => k))
  (at level 61, m at next level, right associativity) : js_scope.
Notation "m ;;; k" := (bind m (fun _ => k))
  (at level 61, right associativity) : js_scope.
Local Open Scope js_scope.

(** Sequencing of pure steps that may throw. *)
Definition andThen {A B} (r : Result A) (k : A -> Result B) : Result B :=
  match r with
  | Ok a => k a
  | Throw e => Throw e
  end.

Fixpoint mapResult (f : value -> Result value) (l : list value) : Result (list value) :=
  match l with
  | [] => Ok []
  | x :: rest =>
      andThen (f x) (fun y => andThen (mapResult f rest) (fun ys => Ok (y :: ys)))
  end.

(** [callee.map(f)], where [calleeText] is the source text of the callee, which
    V8 quotes when the callee has no [map]. *)
Definition arrayMap (callee : value) (calleeText : string) (f : value -> Result value)
  : Result value :=
  match callee with
  | VArr items => andThen (mapResult f items) (fun ys => Ok (VArr ys))
  | VUndefined => Throw (newTypeError "Cannot read properties of undefined (reading 'map')")
  | VNull => Throw (newTypeError "Cannot read properties of null (reading 'map')")
  | _ => Throw (newTypeError (calleeText ++ ".map is not a function"))
  end.

(** How the console prints an exception object. *)
Definition showError (e : jsError) : string :=
  (match err_class e with
   | EError => "Error"
   | EApiError => "ApiError"
   | ETypeError => "TypeError"
   | ESyntaxError => "SyntaxError"
   end) ++ ": " ++ err_message e.

(** The [RequestInit] fields the callers set; [fetch] uses GET when no method
    is given. *)
Record RequestInit : Type := mkInit {
  init_method : option string;
  init_body : option value
}.

Definition noOptions : RequestInit := mkInit None None.

Definition methodOf (options : RequestInit) : string :=
  match init_method options with
  | Some m => m
  | None => "GET"
  end.

(** The statuses the pollers compare with, and the result object they build. *)
Definition failureStatuses : list string := ["FAILED"; "ABORTED"; "TIMED-OUT"].

Definition outcome (run dataset : value) (status finishedAt stats : value) : value :=
  VObj [("status", status); ("finishedAt", finishedAt); ("stats", stats);
        ("dataset", dataset); ("run", run)].

(** ** The browser-side client ([ApifyClient]) *)

Module ApifyClient.
Section Client.

Variable env : Env.
Variable apiKey : string.

Definition baseUrl : string := "https://api.apify.com/v2".

(** [makeRequest]: the failure message is the [error.message] of the parsed
    body when that is truthy, and the status line otherwise; the [catch]
    around the parse also covers the [TypeError] of reading [error] off a
    body that parsed to [null]. *)
Definition makeRequest (endpoint : string) (options : RequestInit) : M value :=
  let url := baseUrl ++ endpoint in
  response <- fetch env (mkRequest url (methodOf options) ("Bearer " ++ apiKey)
                                   (init_body options)) ;;
  if negb (resp_ok response) then
    let errorMessage :=
      VStr ("HTTP " ++ decimal (resp_status response) ++ ": " ++ resp_statusText response) in
    let errorMessage :=
      match andThen (parseBody response) (fun errorData =>
            andThen (get errorData "error") (fun error =>
            Ok (or_else (getOpt error "message") errorMessage))) with
      | Ok m => m
      | Throw _ => errorMessage
      end in
    throw (newError (toString errorMessage))
  else
    lift (parseBody response).

Definition mapActor (actor : value) : Result value :=
  andThen (get actor "id") (fun id =>
  andThen (get actor "name") (fun name =>
  andThen (get actor "title") (fun title =>
  andThen (get actor "description") (fun description =>
  andThen (get actor "stats") (fun stats =>
  Ok (VObj [("id", id);
            ("name", name);
            ("title", or_else title name);
            ("description", or_else description (VStr "No description available"));
            ("stats", or_else stats (VObj [("totalRuns", VNum 0)]))])))))).

Definition getActors : M value :=
  tryCatch
    (response <- makeRequest "/acts?my=true&limit=100" noOptions ;;
     data <- lift (get response "data") ;;
     items <- lift (get data "items") ;;
     lift (arrayMap items "response.data.items" mapActor))
    (fun error => throw (newError ("Failed to fetch actors: " ++ messageOrUnknown error))).

Definition getActorSchema (actorId : string) : M value :=
  tryCatch
    (response <- makeRequest ("/acts/" ++ actorId) noOptions ;;
     data <- lift (get response "data") ;;
     defaultRunOptions <- lift (get data "defaultRunOptions") ;;
     let inputSchema := getOpt defaultRunOptions "inputSchema" in
     if negb (truthy inputSchema) then
       throw (newError "No input schema found for this actor")
     else
       ret inputSchema)
    (fun error => throw (newError ("Failed to fetch actor schema: " ++ messageOrUnknown error))).

Definition runActor (actorId : string) (input : value) : M value :=
  tryCatch
    (response <- makeRequest ("/acts/" ++ actorId ++ "/runs")
                             (mkInit (Some "POST") (Some input)) ;;
     data <- lift (get response "data") ;;
     lift (get data "id"))
    (fun error => throw (newError ("Failed to start actor run: " ++ messageOrUnknown error))).

Definition getRun (runId : string) : M value :=
  tryCatch
    (response <- makeRequest ("/actor-runs/" ++ runId) noOptions ;;
     lift (get response "data"))
    (fun error => throw (newError ("Failed to fetch run details: " ++ messageOrUnknown error))).

(** The [try] block of [getRunDataset]: it fetches the run again to read the
    dataset id. *)
Definition getRunDataset_try (runId : string) : M value :=
  run <- getRun runId ;;
  datasetId <- lift (get run "defaultDatasetId") ;;
  if negb (truthy datasetId) then
    ret (VArr [])
  else
    response <- makeRequest ("/datasets/" ++ toString datasetId ++ "/items?format=json")
                            noOptions ;;
    ret response.

Definition getRunDataset (runId : string) : M value :=
  tryCatch
    (getRunDataset_try runId)
    (fun error => consoleWarn "Failed to fetch dataset:" (showError error) ;;; ret (VArr [])).

Definition pollInterval : Z := 2000.

Definition timeoutError : jsError :=
  newError "Actor run timed out - taking longer than expected".

(** One turn of the [while] loop of [waitForRun]: [Some v] when the body
    returns [v], [None] when it reaches its end after the sleep. *)
Definition waitForRun_body (runId : string) : M (option value) :=
  run <- getRun runId ;;
  status <- lift (get run "status") ;;
  if strictEqStr status "SUCCEEDED" then
    dataset <- getRunDataset runId ;;
    finishedAt <- lift (get run "finishedAt") ;;
    stats <- lift (get run "stats") ;;
    ret (Some (outcome run dataset status finishedAt stats))
  else if existsb (strictEqStr status) failureStatuses then
    lowered <- lift (callToLowerCase status) ;;
    statusMessage <- lift (get run "statusMessage") ;;
    throw (newError ("Actor run " ++ lowered ++ ": "
                     ++ toString (or_else statusMessage (VStr "No error message available"))))
  else
    sleep env pollInterval ;;;
    ret None.

(** The [while] loop, with [fuel] bounding the number of turns: [None] when the
    fuel runs out before the loop ends. *)
Fixpoint waitForRun_loop (fuel : nat) (runId : string) (startTime maxWaitTime : Z)
  (w : World) : option (Result value * World) :=
  if now w - startTime <? maxWaitTime then
    match fuel with
    | O => None
    | S fuel' =>
        match waitForRun_body runId w with
        | (Ok (Some v), w') => Some (Ok v, w')
        | (Ok None, w') => waitForRun_loop fuel' runId startTime maxWaitTime w'
        | (Throw e, w') => Some (Throw e, w')
        end
    end
  else
    Some (Throw timeoutError, w).

Definition defaultMaxWaitTime : Z := 300000.

Definition waitForRun (fuel : nat) (runId : string) (maxWaitTime : Z) (w : World)
  : option (Result value * World) :=
  let startTime := now w in
  waitForRun_loop fuel runId startTime maxWaitTime w.

End Client.
End ApifyClient.

(** ** The frontend client of the proxy ([ApiClient], services/apiClient.ts) *)

Module ApiClient.
Section Client.

Variable env : Env.
Variable apiKey : string.
(** [import.meta.env.VITE_API_URL || 'http://localhost:3001/api'], fixed when
    the frontend is built. *)
Variable API_BASE_URL : string.

Definition newApiError (message : string) (status : Z) : jsError :=
  mkError EApiError message (Some status).

(** The [try] block of [makeRequest].  On a response that is not ok it throws
    an [ApiError]; [response.json().catch(() => ({}))] replaces a body that
    does not parse by the empty object.  On an ok response it executes
    [return response.json()]: the promise is handed back without [await], so
    the block ends normally and the promise settles after the [try] statement
    has been left.  The block's result is therefore the response whose body
    remains to be parsed. *)
Definition makeRequest_try (endpoint : string) (options : RequestInit) : M Response :=
  let url := API_BASE_URL ++ endpoint in
  response <- fetch env (mkRequest url (methodOf options) ("Bearer " ++ apiKey)
                                   (init_body options)) ;;
  if negb (resp_ok response) then
    let errorData :=
      match parseBody response with
      | Ok v => v
      | Throw _ => VObj []
      end in
    error <- lift (get errorData "error") ;;
    let errorMessage :=
      or_else (getOpt error "message")
              (VStr ("HTTP " ++ decimal (resp_status response) ++ ": "
                     ++ resp_statusText response)) in
    throw (newApiError (toString errorMessage) (resp_status response))
  else
    ret response.

(** The [catch] clause of [makeRequest]. *)
Definition makeRequest_catch (error : jsError) : M Response :=
  if instanceofApiError error then
    throw error
  else
    throw (newApiError (if instanceofError error then err_message error
                        else "Network error occurred") 0).

(** [makeRequest]: the promise it returns settles as the [response.json()]
    promise returned from the [try] block does, outside the reach of the
    [catch] clause. *)
Definition makeRequest (endpoint : string) (options : RequestInit) : M value :=
  response <- tryCatch (makeRequest_try endpoint options) makeRequest_catch ;;
  lift (parseBody response).

Definition getActors : M value :=
  tryCatch
    (response <- makeRequest "/apify/actors" noOptions ;;
     lift (get response "data"))
    (fun error => throw (newError ("Failed to fetch actors: " ++ messageOrUnknown error))).

Definition getActorSchema (actorId : string) : M value :=
  tryCatch
    (response <- makeRequest ("/apify/actors/" ++ actorId ++ "/schema") noOptions ;;
     lift (get response "data"))
    (fun error => throw (newError ("Failed to fetch actor schema: " ++ messageOrUnknown error))).

Definition runActor (actorId : string) (input : value) : M value :=
  tryCatch
    (response <- makeRequest ("/apify/actors/" ++ actorId ++ "/runs")
                             (mkInit (Some "POST") (Some input)) ;;
     data <- lift (get response "data") ;;
     lift (get data "runId"))
    (fun error => throw (newError ("Failed to start actor run: " ++ messageOrUnknown error))).

Definition getRun (runId : string) : M value :=
  tryCatch
    (response <- makeRequest ("/apify/runs/" ++ runId) noOptions ;;
     lift (get response "data"))
    (fun error => throw (newError ("Failed to fetch run details: " ++ messageOrUnknown error))).

Definition getRunDataset (runId : string) : M value :=
  tryCatch
    (response <- makeRequest ("/apify/runs/" ++ runId ++ "/dataset") noOptions ;;
     lift (get response "data"))
    (fun error => consoleWarn "Failed to fetch dataset:" (showError error) ;;; ret (VArr [])).

Definition waitForRun (runId : string) : M value :=
  tryCatch
    (response <- makeRequest ("/apify/runs/" ++ runId ++ "/wait") noOptions ;;
     lift (get response "data"))
    (fun error =>
       throw (newError ("Failed to wait for run completion: " ++ messageOrUnknown error))).

End Client.
End ApiClient.

(** ** The proxy's routes ([Server], the Express router) *)

Module Server.
Section Routes.

Variable env : Env.

Definition APIFY_BASE_URL : string := "https://api.apify.com/v2".

(** What a route handler ends with: [res.status(s).json(body)] or
    [next(error)]. *)
Inductive Handled : Type :=
| ResJson (status : Z) (body : value)
| Next (error : jsError).

(** [makeApifyRequest]: as the browser-side [makeRequest], and the error
    carries the HTTP status. *)
Definition makeApifyRequest (endpoint apiKey : string) (options : RequestInit) : M value :=
  let url := APIFY_BASE_URL ++ endpoint in
  response <- fetch env (mkRequest url (methodOf options) ("Bearer " ++ apiKey)
                                   (init_body options)) ;;
  if negb (resp_ok response) then
    let errorMessage :=
      VStr ("HTTP " ++ decimal (resp_status response) ++ ": " ++ resp_statusText response) in
    let errorMessage :=
      match andThen (parseBody response) (fun errorData =>
            andThen (get errorData "error") (fun error =>
            Ok (or_else (getOpt error "message") errorMessage))) with
      | Ok m => m
      | Throw _ => errorMessage
      end in
    throw (mkError EError (toString errorMessage) (Some (resp_status response)))
  else
    lift (parseBody response).

Definition handle (m : M Handled) : World -> Handled * World :=
  fun w =>
    match m w with
    | (Ok h, w') => (h, w')
    | (Throw e, w') => (Next e, w')
    end.

Definition mapActor (actor : value) : Result value :=
  andThen (get actor "id") (fun id =>
  andThen (get actor "name") (fun name =>
  andThen (get actor "title") (fun title =>
  andThen (get actor "description") (fun description =>
  andThen (get actor "stats") (fun stats =>
  Ok (VObj [("id", id);
            ("name", name);
            ("title", or_else title name);
            ("description", or_else description (VStr "No description available"));
            ("stats", or_else stats (VObj [("totalRuns", VNum 0)]))])))))).

(** GET /actors *)
Definition actorsRoute (apiKey : string) : World -> Handled * World :=
  handle
    (response <- makeApifyRequest "/acts?my=true&limit=100" apiKey noOptions ;;
     data <- lift (get response "data") ;;
     items <- lift (get data "items") ;;
     actors <- lift (arrayMap items "response.data.items" mapActor) ;;
     ret (ResJson 200 (VObj [("data", actors)]))).

(** GET /actors/:actorId/schema *)
Definition schemaRoute (apiKey actorId : string) : World -> Handled * World :=
  handle
    (response <- makeApifyRequest ("/acts/" ++ actorId) apiKey noOptions ;;
     data <- lift (get response "data") ;;
     defaultRunOptions <- lift (get data "defaultRunOptions") ;;
     let inputSchema := getOpt defaultRunOptions "inputSchema" in
     if negb (truthy inputSchema) then
       ret (ResJson 404 (VObj [("error",
              VObj [("message", VStr "No input schema found for this actor")])]))
     else
       ret (ResJson 200 (VObj [("data", inputSchema)]))).

Definition maxWaitTime : Z := 300000.
Definition pollInterval : Z := 2000.

Definition timeoutError : jsError :=
  newError "Run timed out - taking longer than expected".

(** The [try] block inside the success branch of [pollRun]; [dataset] starts
    as the empty array and is assigned only when the request has returned. *)
Definition pollRun_dataset_try (apiKey : string) (run : value) : M value :=
  datasetId <- lift (get run "defaultDatasetId") ;;
  if truthy datasetId then
    makeApifyRequest ("/datasets/" ++ toString datasetId ++ "/items?format=json")
                     apiKey noOptions
  else
    ret (VArr []).

Definition pollRun_dataset (apiKey : string) (run : value) : M value :=
  tryCatch
    (pollRun_dataset_try apiKey run)
    (fun error =>
       consoleWarn "Failed to fetch dataset:" (err_message error) ;;; ret (VArr [])).

(** The part of [pollRun] after its deadline test: [Some v] when it returns
    [v], [None] when it goes on to [return pollRun()] after the sleep. *)
Definition pollRun_body (apiKey runId : string) : M (option value) :=
  runResponse <- makeApifyRequest ("/actor-runs/" ++ runId) apiKey noOptions ;;
  run <- lift (get runResponse "data") ;;
  status <- lift (get run "status") ;;
  if strictEqStr status "SUCCEEDED" then
    dataset <- pollRun_dataset apiKey run ;;
    finishedAt <- lift (get run "finishedAt") ;;
    stats <- lift (get run "stats") ;;
    ret (Some (outcome run dataset status finishedAt stats))
  else if existsb (strictEqStr status) failureStatuses then
    lowered <- lift (callToLowerCase status) ;;
    statusMessage <- lift (get run "statusMessage") ;;
    throw (newError ("Actor run " ++ lowered ++ ": "
                     ++ toString (or_else statusMessage (VStr "No error message available"))))
  else
    sleep env pollInterval ;;;
    ret None.

(** [pollRun], with [fuel] bounding the depth of its recursion. *)
Fixpoint pollRun (fuel : nat) (apiKey runId : string) (startTime : Z) (w : World)
  : option (Result value * World) :=
  if now w - startTime >? maxWaitTime then
    Some (Throw timeoutError, w)
  else
    match fuel with
    | O => None
    | S fuel' =>
        match pollRun_body apiKey runId w with
        | (Ok (Some v), w') => Some (Ok v, w')
        | (Ok None, w') => pollRun fuel' apiKey runId startTime w'
        | (Throw e, w') => Some (Throw e, w')
        end
    end.

(** GET /runs/:runId/wait *)
Definition waitRoute (fuel : nat) (apiKey runId : string) (w : World)
  : option (Handled * World) :=
  let startTime := now w in
  match pollRun fuel apiKey runId startTime w with
  | Some (Ok result, w') => Some (ResJson 200 (VObj [("data", result)]), w')
  | Some (Throw error, w') => Some (Next error, w')
  | None => None
  end.

(** The middleware [validateApiKey]: [inl] is the response it ends the
    request with, [inr] the key it stores in [req.apiKey] before [next()].
    [authorization] is the request's Authorization header, if any. *)
Definition validateApiKey (authorization : option string) : Handled + string :=
  match option_map (replaceFirst "Bearer " EmptyString) authorization with
  | Some apiKey =>
      if negb (truthy (VStr apiKey)) then
        inl (ResJson 401 (VObj [("error", VObj [("message", VStr "API key is required")])]))
      else
        inr apiKey
  | None =>
      inl (ResJson 401 (VObj [("error", VObj [("message", VStr "API key is required")])]))
  end.

(** A route behind the middleware. *)
Definition guarded (authorization : option string)
  (route : string -> World -> Handled * World) (w : World) : Handled * World :=
  match validateApiKey authorization with
  | inl response => (response, w)
  | inr apiKey => route apiKey w
  end.

(** POST /actors/:actorId/runs, with [input] the parsed request body. *)
Definition runsRoute (actorId : string) (input : value) (apiKey : string)
  : World -> Handled * World :=
  handle
    (response <- makeApifyRequest ("/acts/" ++ actorId ++ "/runs") apiKey
                                  (mkInit (Some "POST") (Some input)) ;;
     data <- lift (get response "data") ;;
     id <- lift (get data "id") ;;
     ret (ResJson 200 (VObj [("data", VObj [("runId", id)])]))).

(** GET /runs/:runId *)
Definition runRoute (runId : string) (apiKey : string) : World -> Handled * World :=
  handle
    (response <- makeApifyRequest ("/actor-runs/" ++ runId) apiKey noOptions ;;
     data <- lift (get response "data") ;;
     ret (ResJson 200 (VObj [("data", data)]))).


End Routes.
End Server.

(** ** The input form ([SchemaForm]) *)

Module SchemaForm.

(** The test [validateForm] applies to the value of a required field:
    [!v || (typeof v === 'string' && !v.trim())], for a text that is ASCII. *)
Definition unfilled (v : value) : bool :=
  orb (negb (truthy v))
      (match v with
       | VStr s => negb (truthy (VStr (trim s)))
       | _ => false
       end).

(** [validateForm]: [required] is [schema.required], [formData] the state of
    the form, an object read and written by key.  The reads and writes are
    those of the code for the keys that are not properties of
    [Object.prototype] ([ownKey]).  The result is the object handed to
    [setErrors] and the value returned. *)
Definition validateForm (required : option (list string)) (formData : list (string * value))
  : list (string * value) * bool :=
  let required := match required with Some fields => fields | None => [] end in
  let newErrors :=
    fold_left
      (fun newErrors field =>
         if unfilled (lookup field formData) then
           assign field (VStr "This field is required") newErrors
         else newErrors)
      required [] in
  (newErrors, Nat.eqb (List.length newErrors) 0).

(** [updateFormData]: the two state updates, on the current form data and
    errors. *)
Definition updateFormData (key : string) (v : value)
  (state : list (string * value) * list (string * value))
  : list (string * value) * list (string * value) :=
  let (formData, errors) := state in
  (assign key v formData,
   if truthy (lookup key errors) then assign key (VStr EmptyString) errors else errors).

(** [handleSubmit]: the data passed to [onSubmit], if it is called, and the
    errors set. *)
Definition handleSubmit (required : option (list string)) (formData : list (string * value))
  : option (list (string * value)) * list (string * value) :=
  let (newErrors, valid) := validateForm required formData in
  (if valid then Some formData else None, newErrors).

(** The text an array field shows: [Array.isArray(value) ? value.join('\n') :
    value]. *)
Definition arrayText (v : value) : value :=
  match v with
  | VArr items => VStr (arrayJoin (String lineFeed EmptyString) items)
  | _ => v
  end.

(** The value an array field stores for the text typed:
    [text.split('\n').filter(item => item.trim())], for ASCII text. *)
Definition arrayValue (text : string) : value :=
  VArr (map VStr (filter (fun item => truthy (VStr (trim item))) (split lineFeed text))).

End SchemaForm.

(** ** The application ([App]) *)

Module App.

Record Actor : Type := mkActor {
  actor_id : string;
  actor_name : string;
  actor_title : string;
  actor_description : string;
  actor_totalRuns : Z
}.

(** [filteredActors]; letter case is folded as [toLowerCase] does on ASCII
    text. *)
Definition filteredActors (actors : list Actor) (searchTerm : string) : list Actor :=
  filter (fun actor =>
            orb (includes (toLowerCase (actor_name actor)) (toLowerCase searchTerm))
                (includes (toLowerCase (actor_title actor)) (toLowerCase searchTerm)))
         actors.

End App.

(** ** Notions used in the statements *)

(** The request a client issues for an endpoint of the platform. *)
Definition platformRequest (apiKey endpoint : string) (options : RequestInit) : Request :=
  mkRequest ("https://api.apify.com/v2" ++ endpoint) (methodOf options)
            ("Bearer " ++ apiKey) (init_body options).

(** The request the frontend client issues for an endpoint of the proxy. *)
Definition proxyRequest (base apiKey endpoint : string) (options : RequestInit) : Request :=
  mkRequest (base ++ endpoint) (methodOf options) ("Bearer " ++ apiKey) (init_body options).

Definition runRequest (apiKey runId : string) : Request :=
  platformRequest apiKey ("/actor-runs/" ++ runId) noOptions.

Definition itemsRequest (apiKey : string) (datasetId : value) : Request :=
  platformRequest apiKey ("/datasets/" ++ toString datasetId ++ "/items?format=json") noOptions.

(** The world once the reply to [req], issued in [w], has arrived. *)
Definition afterFetch (env : Env) (w : World) (req : Request) : World :=
  mkWorld (now w + Z.of_N (latency (respond env w req))) ((now w, req) :: sent w) (console w).

(** The world once a timer of [ms] milliseconds set in [w] has fired. *)
Definition afterSleep (env : Env) (ms : Z) (w : World) : World :=
  mkWorld (now w + ms + Z.of_N (timerLag env w)) (sent w) (console w).

(** The status line that stands in for a missing error message. *)
Definition statusLine (r : Response) : string :=
  "HTTP " ++ decimal (resp_status r) ++ ": " ++ resp_statusText r.

(** The message [makeRequest] and [makeApifyRequest] give the error for a
    response that is not ok. *)
Definition failureMessage (r : Response) : string :=
  toString
    match andThen (parseBody r) (fun errorData =>
          andThen (get errorData "error") (fun error =>
          Ok (or_else (getOpt error "message") (VStr (statusLine r))))) with
    | Ok m => m
    | Throw _ => VStr (statusLine r)
    end.

(** The [error.message] of a response body, [undefined] when the body is not
    JSON or has no such field. *)
Definition errorField (r : Response) : value :=
  match resp_body r with
  | Json v => getOpt (getOpt v "error") "message"
  | NotJson _ => VUndefined
  end.

(** A status the pollers neither accept as success nor report as failure. *)
Definition unrecognized (status : value) : Prop :=
  status <> VStr "SUCCEEDED" /\ ~ In status (map VStr failureStatuses).

(** The request was answered with HTTP success and a JSON body. *)
Definition answersJson (env : Env) (w : World) (req : Request) (v : value) : Prop :=
  exists r, settled (respond env w req) = Resolved r /\ resp_ok r = true /\ resp_body r = Json v.

(** The run-status request issued in [w] is answered with HTTP success and a
    JSON body whose [data] is the record [run]. *)
Definition observes (env : Env) (apiKey runId : string) (w : World) (run : value) : Prop :=
  exists body, answersJson env w (runRequest apiKey runId) body /\ get body "data" = Ok run.

(** The run stays in a status that is neither success nor failure. *)
Definition staysPending (env : Env) (apiKey runId : string) : Prop :=
  forall w, exists run status,
    observes env apiKey runId w run /\ get run "status" = Ok status /\ unrecognized status.

(** The request failed: [fetch] rejected, the status was not a success, or
    the body of a success was not JSON. *)
Definition requestFails (env : Env) (w : World) (req : Request) : Prop :=
  match settled (respond env w req) with
  | Rejected _ => True
  | Resolved r => resp_ok r = false \/ exists msg, resp_body r = NotJson msg
  end.

(** The worlds in which the proxy's [pollRun] performs its deadline test,
    starting from [w0]. *)
Inductive deadlineTest (env : Env) (apiKey runId : string) (w0 : World) : World -> Prop :=
| test_first : deadlineTest env apiKey runId w0 w0
| test_next w w' :
    deadlineTest env apiKey runId w0 w ->
    Server.pollRun_body env apiKey runId w = (Ok None, w') ->
    deadlineTest env apiKey runId w0 w'.

(** The reading of the run record fails with [e]: the reply to the run-status
    request issued in [w] is the rejection [e] of [fetch]; or a response that
    is not ok, [e] being the error with its failure message and its status;
    or an ok response of which the body does not parse, or of which [data]
    cannot be read, [e] being what the parser or the property read throws. *)
Definition runReadFails (env : Env) (apiKey runId : string) (w : World) (e : jsError) : Prop :=
  match settled (respond env w (runRequest apiKey runId)) with
  | Rejected rejection => e = rejection
  | Resolved r =>
      if resp_ok r then andThen (parseBody r) (fun body => get body "data") = Throw e
      else e = mkError EError (failureMessage r) (Some (resp_status r))
  end.

(** How the client's [waitForRun] with the budget of 300000 ms (first result)
    and the proxy's [pollRun] (second result), both started in [w0], end
    alike, each way with its circumstance.  [w] is the world of the deadline
    test after which they end. *)
Inductive endAlike (env : Env) (apiKey runId : string) (w0 : World)
  : option (Result value * World) -> option (Result value * World) -> Prop :=
| alike_succeeded w run dataset w1 w2 :
    (* the poll before the deadline observes a record with status SUCCEEDED:
       the same outcome, with the dataset both dataset reads give *)
    deadlineTest env apiKey runId w0 w ->
    now w - now w0 < 300000 ->
    observes env apiKey runId w run ->
    get run "status" = Ok (VStr "SUCCEEDED") ->
    ApifyClient.getRunDataset env apiKey runId (afterFetch env w (runRequest apiKey runId))
    = (Ok dataset, w1) ->
    Server.pollRun_dataset env apiKey run (afterFetch env w (runRequest apiKey runId))
    = (Ok dataset, w2) ->
    endAlike env apiKey runId w0
      (Some (Ok (outcome run dataset (VStr "SUCCEEDED")
                         (getOpt run "finishedAt") (getOpt run "stats")), w1))
      (Some (Ok (outcome run dataset (VStr "SUCCEEDED")
                         (getOpt run "finishedAt") (getOpt run "stats")), w2))
| alike_failed w run status :
    (* it observes a record with a failure status: the same error *)
    deadlineTest env apiKey runId w0 w ->
    now w - now w0 < 300000 ->
    observes env apiKey runId w run ->
    get run "status" = Ok (VStr status) ->
    In status failureStatuses ->
    endAlike env apiKey runId w0
      (Some (Throw (newError ("Actor run " ++ toLowerCase status ++ ": "
                              ++ toString (or_else (getOpt run "statusMessage")
                                                   (VStr "No error message available")))),
             afterFetch env w (runRequest apiKey runId)))
      (Some (Throw (newError ("Actor run " ++ toLowerCase status ++ ": "
                              ++ toString (or_else (getOpt run "statusMessage")
                                                   (VStr "No error message available")))),
             afterFetch env w (runRequest apiKey runId)))
| alike_unreadable w run e :
    (* the answer holds no record ([data] is null or undefined): the same
       TypeError of reading its status *)
    deadlineTest env apiKey runId w0 w ->
    now w - now w0 < 300000 ->
    observes env apiKey runId w run ->
    get run "status" = Throw e ->
    endAlike env apiKey runId w0
      (Some (Throw e, afterFetch env w (runRequest apiKey runId)))
      (Some (Throw e, afterFetch env w (runRequest apiKey runId)))
| alike_transport w e :
    (* the reading of the run record fails with [e]: the proxy throws [e],
       the client wraps its message *)
    deadlineTest env apiKey runId w0 w ->
    now w - now w0 < 300000 ->
    runReadFails env apiKey runId w e ->
    endAlike env apiKey runId w0
      (Some (Throw (newError ("Failed to fetch run details: " ++ err_message e)),
             afterFetch env w (runRequest apiKey runId)))
      (Some (Throw e, afterFetch env w (runRequest apiKey runId)))
| alike_timeout w :
    (* the deadline test reads more than 300000 ms: each its own timeout *)
    deadlineTest env apiKey runId w0 w ->
    300000 < now w - now w0 ->
    endAlike env apiKey runId w0
      (Some (Throw ApifyClient.timeoutError, w))
      (Some (Throw Server.timeoutError, w))
| alike_unfinished w :
    (* the fuel has run out at a deadline test before the deadline *)
    deadlineTest env apiKey runId w0 w ->
    now w - now w0 < 300000 ->
    endAlike env apiKey runId w0 None None.

(** A request that reads: a GET without a body, authorised with the key. *)
Definition readsOnly (apiKey : string) (req : Request) : Prop :=
  req_method req = "GET" /\ req_authorization req = "Bearer " ++ apiKey /\ req_body req = None.

(** What a poller may ask for: the run record, or the items of a dataset. *)
Definition pollerRequest (apiKey runId : string) (req : Request) : Prop :=
  req = runRequest apiKey runId \/ exists datasetId, req = itemsRequest apiKey datasetId.

(** From [w] to [w'] the clock has not run backwards and the requests issued
    in between, the list [issued], all satisfy [P]. *)
Definition extends (P : Request -> Prop) (w w' : World) (issued : list (Z * Request)) : Prop :=
  sent w' = (issued ++ sent w)%list
  /\ Forall (fun r => P (snd r)) issued
  /\ now w <= now w'.

(** A computation that, from any world, only issues requests that satisfy
    [P] and does not set the clock back. *)
Definition keeps {A : Type} (P : Request -> Prop) (m : M A) : Prop :=
  forall w, exists issued, extends P w (snd (m w)) issued.

(** How a route of the proxy corresponds to the method of the browser-side
    client for the same operation: the route answers 200 with the method's
    result under [data] (shaped by [wrap]), or passes to [next] the exception
    whose message the method prefixes. *)
Inductive mirrors (prefix : string) (wrap : value -> value)
  : Result value -> Server.Handled -> Prop :=
| mirrors_result v :
    mirrors prefix wrap (Ok v) (Server.ResJson 200 (VObj [("data", wrap v)]))
| mirrors_failure e :
    mirrors prefix wrap (Throw (newError (prefix ++ err_message e))) (Server.Next e).

(** A text without a line feed. *)
Definition singleLine (s : string) : Prop := ~ In lineFeed (list_ascii_of_string s).

(** A value that, if it is a text, is ASCII text; and an object whose fields
    hold such values. *)
Definition asciiValue (v : value) : bool :=
  match v with
  | VStr s => asciiText s
  | _ => true
  end.

Definition asciiFields (fields : list (string * value)) : bool :=
  forallb (fun field => asciiValue (snd field)) fields.

(** ** Concrete surroundings *)

Module Scenario.

Definition world0 : World := mkWorld 0 [] [].

Definition http (status : Z) (statusText : string) (body : Body) : Reply :=
  mkReply 0 (Resolved (mkResponse status statusText body)).

Definition ok (v : value) : Reply := http 200 "OK" (Json v).

Definition data (v : value) : value := VObj [("data", v)].

Definition noLag : World -> N := fun _ => 0%N.

Definition isDatasetUrl (id : string) (req : Request) : bool :=
  String.eqb (req_url req)
             ("https://api.apify.com/v2/datasets/" ++ id ++ "/items?format=json").

Definition isRunUrl (req : Request) : bool :=
  String.eqb (req_url req) "https://api.apify.com/v2/actor-runs/run_1".

Definition errorBody (message : string) : Body :=
  Json (VObj [("error", VObj [("message", VStr message)])]).

Definition runRecord (status : string) (more : list (string * value)) : value :=
  VObj (("id", VStr "run_1") :: ("status", VStr status) :: more).

(** The run never leaves the given status; replies are immediate and timers
    exact. *)
Definition stuckIn (status : string) : Env :=
  mkEnv (fun _ _ => ok (data (runRecord status []))) noLag.

Definition stillRunning : Env := stuckIn "RUNNING".

(** The run never leaves RUNNING and every timer fires one millisecond
    late. *)
Definition lateTimers : Env :=
  mkEnv (fun _ _ => ok (data (runRecord "RUNNING" []))) (fun _ => 1%N).

Definition itemsX : value := VArr [VObj [("title", VStr "x")]].

(** Scenario A of the specification: the first poll sees RUNNING, the later
    ones SUCCEEDED with dataset ds_1, whose items are [{"title":"x"}]. *)
Definition runningThenSucceeded : Env :=
  mkEnv (fun w req =>
           if isRunUrl req then
             match sent w with
             | [] => ok (data (runRecord "RUNNING" []))
             | _ => ok (data (runRecord "SUCCEEDED" [("defaultDatasetId", VStr "ds_1")]))
             end
           else if isDatasetUrl "ds_1" req then ok itemsX
           else http 404 "Not Found" (errorBody "Dataset was not found"))
        noLag.



(** Scenario B of the specification, and its variant with an empty
    [statusMessage]. *)
Definition failedWith (statusMessage : string) : Env :=
  mkEnv (fun _ _ => ok (data (runRecord "FAILED" [("statusMessage", VStr statusMessage)])))
        noLag.

(** Every request is answered with the given status and JSON body. *)
Definition always (status : Z) (statusText : string) (body : Body) : Env :=
  mkEnv (fun _ _ => http status statusText body) noLag.

(** An actor definition without an input schema. *)
Definition actorWithoutSchema : value :=
  data (VObj [("id", VStr "abc"); ("name", VStr "crawler");
              ("defaultRunOptions", VObj [("build", VStr "latest")])]).

(** A listing with one record that has neither title nor description. *)
Definition bareActor : list (string * value) :=
  [("id", VStr "abc"); ("name", VStr "crawler")].

Definition listing : value := data (VObj [("items", VArr [VObj bareActor])]).

(** No HTTP response at all: [fetch] rejects. *)
Definition unreachable : Env :=
  mkEnv (fun _ _ => mkReply 0 (Rejected (newTypeError "Failed to fetch"))) noLag.

(** The address the frontend is built with by default. *)
Definition localProxy : string := "http://localhost:3001/api".

End Scenario.

(** * Properties *)

(** ** Values *)

Lemma strictEqStr_true (v : value) (s : string) :
  strictEqStr v s = true <-> v = VStr s.
Proof.
  destruct v; simpl; try (split; [discriminate | intros H; discriminate H]).
  rewrite String.eqb_eq. split; [intros -> | intros [= ->]]; reflexivity.
Qed.

Lemma strictEqStr_false (v : value) (s : string) :
  v <> VStr s -> strictEqStr v s = false.
Proof.
  intros H. destruct (strictEqStr v s) eqn:E; [|reflexivity].
  apply strictEqStr_true in E. contradiction.
Qed.

Lemma existsb_strictEqStr_false (v : value) (l : list string) :
  ~ In v (map VStr l) -> existsb (strictEqStr v) l = false.
Proof.
  induction l as [|s l IH]; simpl; intros H; [reflexivity|].
  rewrite strictEqStr_false, IH; auto.
Qed.

Lemma existsb_strictEqStr_true (v : value) (l : list string) :
  In v (map VStr l) -> existsb (strictEqStr v) l = true.
Proof.
  induction l as [|s l IH]; simpl; [tauto|].
  intros [<- | H].
  - simpl. now rewrite String.eqb_refl.
  - rewrite IH by assumption. apply orb_true_r.
Qed.

Lemma unrecognized_tests (status : value) :
  unrecognized status ->
  strictEqStr status "SUCCEEDED" = false /\
  existsb (strictEqStr status) failureStatuses = false.
Proof.
  intros [H1 H2]. split.
  - now apply strictEqStr_false.
  - now apply existsb_strictEqStr_false.
Qed.

Lemma messageOrUnknown_message (e : jsError) : messageOrUnknown e = err_message e.
Proof.
  unfold messageOrUnknown, instanceofError. now destruct (err_class e).
Qed.

(** ** The transports *)

Section Transport.

Variable env : Env.
Variable apiKey : string.

Lemma apify_makeRequest_eq (endpoint : string) (options : RequestInit) (w : World) :
  ApifyClient.makeRequest env apiKey endpoint options w =
  (match settled (respond env w (platformRequest apiKey endpoint options)) with
   | Rejected e => Throw e
   | Resolved r =>
       if resp_ok r then parseBody r else Throw (newError (failureMessage r))
   end,
   afterFetch env w (platformRequest apiKey endpoint options)).
Proof.
  unfold ApifyClient.makeRequest, bind, fetch, afterFetch, lift, throw.
  change (ApifyClient.baseUrl ++ endpoint)%string
    with (req_url (platformRequest apiKey endpoint options)).
  change (mkRequest _ _ _ _) with (platformRequest apiKey endpoint options).
  destruct (settled _) as [e|r]; [reflexivity|].
  destruct (resp_ok r); reflexivity.
Qed.

Lemma server_makeApifyRequest_eq (endpoint : string) (options : RequestInit) (w : World) :
  Server.makeApifyRequest env endpoint apiKey options w =
  (match settled (respond env w (platformRequest apiKey endpoint options)) with
   | Rejected e => Throw e
   | Resolved r =>
       if resp_ok r then parseBody r
       else Throw (mkError EError (failureMessage r) (Some (resp_status r)))
   end,
   afterFetch env w (platformRequest apiKey endpoint options)).
Proof.
  unfold Server.makeApifyRequest, bind, fetch, afterFetch, lift, throw.
  change (Server.APIFY_BASE_URL ++ endpoint)%string
    with (req_url (platformRequest apiKey endpoint options)).
  change (mkRequest _ _ _ _) with (platformRequest apiKey endpoint options).
  destruct (settled _) as [e|r]; [reflexivity|].
  destruct (resp_ok r); reflexivity.
Qed.

End Transport.

(** ** Reading the run record *)

Section RunAccessor.

Variable env : Env.
Variable apiKey : string.
Variable runId : string.

Lemma getRun_world (w : World) :
  snd (ApifyClient.getRun env apiKey runId w) = afterFetch env w (runRequest apiKey runId).
Proof.
  unfold ApifyClient.getRun, tryCatch, bind, lift, throw.
  rewrite apify_makeRequest_eq. fold (runRequest apiKey runId).
  destruct (settled _) as [e|r]; [reflexivity|].
  destruct (resp_ok r); [|reflexivity].
  destruct (parseBody r) as [v|e]; [|reflexivity].
  destruct (get v "data"); reflexivity.
Qed.

Lemma getRun_observes (w : World) (run : value) :
  observes env apiKey runId w run ->
  ApifyClient.getRun env apiKey runId w = (Ok run, afterFetch env w (runRequest apiKey runId)).
Proof.
  intros (body & (r & Hs & Hok & Hb) & Hd).
  unfold ApifyClient.getRun, tryCatch, bind, lift, throw.
  rewrite apify_makeRequest_eq. fold (runRequest apiKey runId).
  rewrite Hs, Hok. unfold parseBody. rewrite Hb, Hd. reflexivity.
Qed.


(** The proxy's reading of the run record, as [pollRun] starts with. *)
Lemma server_fetch_observes (w : World) (run : value) {B} (k : value -> M B) :
  observes env apiKey runId w run ->
  (runResponse <- Server.makeApifyRequest env ("/actor-runs/" ++ runId) apiKey noOptions ;;
   run' <- lift (get runResponse "data") ;;
   k run') w
  = k run (afterFetch env w (runRequest apiKey runId)).
Proof.
  intros (body & (r & Hs & Hok & Hb) & Hd).
  unfold bind, lift. rewrite server_makeApifyRequest_eq. fold (runRequest apiKey runId).
  rewrite Hs, Hok. unfold parseBody. rewrite Hb, Hd. reflexivity.
Qed.

End RunAccessor.

(** Once one property of a value has been read, reading another does not
    throw. *)
Lemma get_getOpt (v : value) (k k' : string) (x : value) :
  get v k = Ok x -> get v k' = Ok (getOpt v k').
Proof.
  destruct v; simpl; intros H; try discriminate; reflexivity.
Qed.

Lemma failure_not_succeeded (s : string) :
  In s failureStatuses -> strictEqStr (VStr s) "SUCCEEDED" = false.
Proof.
  simpl. intros [<- | [<- | [<- | []]]]; reflexivity.
Qed.

(** ** One turn of each poller *)

Section Turn.

Variable env : Env.
Variable apiKey : string.
Variable runId : string.

Local Abbreviation fetched w := (afterFetch env w (runRequest apiKey runId)) (only parsing).

Lemma getRunDataset_total (w : World) :
  exists dataset, fst (ApifyClient.getRunDataset env apiKey runId w) = Ok dataset.
Proof.
  unfold ApifyClient.getRunDataset, tryCatch.
  destruct (ApifyClient.getRunDataset_try env apiKey runId w) as [[v|e] w']; simpl; eauto.
Qed.




Lemma client_turn_pending (w : World) (run status : value) :
  observes env apiKey runId w run ->
  get run "status" = Ok status ->
  unrecognized status ->
  ApifyClient.waitForRun_body env apiKey runId w
  = (Ok None, afterSleep env ApifyClient.pollInterval (fetched w)).
Proof.
  intros Ho Hs Hu. destruct (unrecognized_tests _ Hu) as [H1 H2].
  unfold ApifyClient.waitForRun_body, bind.
  rewrite (getRun_observes _ _ _ _ _ Ho).
  unfold lift at 1. rewrite Hs, H1, H2. reflexivity.
Qed.

Lemma server_turn_pending (w : World) (run status : value) :
  observes env apiKey runId w run ->
  get run "status" = Ok status ->
  unrecognized status ->
  Server.pollRun_body env apiKey runId w
  = (Ok None, afterSleep env Server.pollInterval (fetched w)).
Proof.
  intros Ho Hs Hu. destruct (unrecognized_tests _ Hu) as [H1 H2].
  unfold Server.pollRun_body.
  rewrite (server_fetch_observes _ _ _ _ _ _ Ho).
  unfold bind, lift at 1. rewrite Hs, H1, H2. reflexivity.
Qed.

Lemma client_turn_failed (w : World) (run : value) (s : string) :
  observes env apiKey runId w run ->
  get run "status" = Ok (VStr s) ->
  In s failureStatuses ->
  ApifyClient.waitForRun_body env apiKey runId w
  = (Throw (newError ("Actor run " ++ toLowerCase s ++ ": "
                      ++ toString (or_else (getOpt run "statusMessage")
                                           (VStr "No error message available")))),
     fetched w).
Proof.
  intros Ho Hs Hin.
  unfold ApifyClient.waitForRun_body, bind.
  rewrite (getRun_observes _ _ _ _ _ Ho).
  unfold lift at 1. rewrite Hs, (failure_not_succeeded _ Hin).
  rewrite (existsb_strictEqStr_true (VStr s) failureStatuses) by now apply in_map.
  unfold lift, callToLowerCase. rewrite (get_getOpt _ _ "statusMessage" _ Hs).
  reflexivity.
Qed.

Lemma server_turn_failed (w : World) (run : value) (s : string) :
  observes env apiKey runId w run ->
  get run "status" = Ok (VStr s) ->
  In s failureStatuses ->
  Server.pollRun_body env apiKey runId w
  = (Throw (newError ("Actor run " ++ toLowerCase s ++ ": "
                      ++ toString (or_else (getOpt run "statusMessage")
                                           (VStr "No error message available")))),
     fetched w).
Proof.
  intros Ho Hs Hin.
  unfold Server.pollRun_body.
  rewrite (server_fetch_observes _ _ _ _ _ _ Ho).
  unfold bind, lift at 1. rewrite Hs, (failure_not_succeeded _ Hin).
  rewrite (existsb_strictEqStr_true (VStr s) failureStatuses) by now apply in_map.
  unfold lift, callToLowerCase. rewrite (get_getOpt _ _ "statusMessage" _ Hs).
  reflexivity.
Qed.

Lemma client_turn_succeeded (w : World) (run : value) :
  observes env apiKey runId w run ->
  get run "status" = Ok (VStr "SUCCEEDED") ->
  forall dataset w',
  ApifyClient.getRunDataset env apiKey runId (fetched w) = (Ok dataset, w') ->
  ApifyClient.waitForRun_body env apiKey runId w
  = (Ok (Some (outcome run dataset (VStr "SUCCEEDED")
                       (getOpt run "finishedAt") (getOpt run "stats"))), w').
Proof.
  intros Ho Hs dataset w' Hd.
  unfold ApifyClient.waitForRun_body, bind.
  rewrite (getRun_observes _ _ _ _ _ Ho).
  unfold lift at 1. rewrite Hs.
  change (strictEqStr (VStr "SUCCEEDED") "SUCCEEDED") with true. cbv beta iota.
  rewrite Hd.
  unfold lift. rewrite (get_getOpt _ _ "finishedAt" _ Hs), (get_getOpt _ _ "stats" _ Hs).
  reflexivity.
Qed.

Lemma server_turn_succeeded (w : World) (run : value) :
  observes env apiKey runId w run ->
  get run "status" = Ok (VStr "SUCCEEDED") ->
  forall dataset w',
  Server.pollRun_dataset env apiKey run (fetched w) = (Ok dataset, w') ->
  Server.pollRun_body env apiKey runId w
  = (Ok (Some (outcome run dataset (VStr "SUCCEEDED")
                       (getOpt run "finishedAt") (getOpt run "stats"))), w').
Proof.
  intros Ho Hs dataset w' Hd.
  unfold Server.pollRun_body.
  rewrite (server_fetch_observes _ _ _ _ _ _ Ho).
  unfold bind, lift at 1. rewrite Hs.
  change (strictEqStr (VStr "SUCCEEDED") "SUCCEEDED") with true. cbv beta iota.
  rewrite Hd.
  unfold lift. rewrite (get_getOpt _ _ "finishedAt" _ Hs), (get_getOpt _ _ "stats" _ Hs).
  reflexivity.
Qed.

End Turn.

(** ** The loops *)

Section Loops.

Variable env : Env.
Variable apiKey : string.
Variable runId : string.

Local Abbreviation fetched w := (afterFetch env w (runRequest apiKey runId)) (only parsing).

Lemma client_loop_continue (fuel : nat) (start maxWait : Z) (w w' : World) :
  now w - start < maxWait ->
  ApifyClient.waitForRun_body env apiKey runId w = (Ok None, w') ->
  ApifyClient.waitForRun_loop env apiKey (S fuel) runId start maxWait w
  = ApifyClient.waitForRun_loop env apiKey fuel runId start maxWait w'.
Proof.
  intros Hlt Hb. cbn [ApifyClient.waitForRun_loop].
  apply Z.ltb_lt in Hlt. rewrite Hlt, Hb. reflexivity.
Qed.

Lemma client_loop_end (fuel : nat) (start maxWait : Z) (w w' : World) (r : Result value) :
  now w - start < maxWait ->
  ApifyClient.waitForRun_body env apiKey runId w
  = (match r with Ok v => Ok (Some v) | Throw e => Throw e end, w') ->
  ApifyClient.waitForRun_loop env apiKey (S fuel) runId start maxWait w = Some (r, w').
Proof.
  intros Hlt Hb. cbn [ApifyClient.waitForRun_loop].
  apply Z.ltb_lt in Hlt. rewrite Hlt, Hb. destruct r; reflexivity.
Qed.

Lemma client_loop_deadline (fuel : nat) (start maxWait : Z) (w : World) :
  maxWait <= now w - start ->
  ApifyClient.waitForRun_loop env apiKey fuel runId start maxWait w
  = Some (Throw ApifyClient.timeoutError, w).
Proof.
  intros Hge. apply Z.ltb_ge in Hge.
  destruct fuel; cbn [ApifyClient.waitForRun_loop]; rewrite Hge; reflexivity.
Qed.

Lemma server_loop_continue (fuel : nat) (start : Z) (w w' : World) :
  now w - start <= Server.maxWaitTime ->
  Server.pollRun_body env apiKey runId w = (Ok None, w') ->
  Server.pollRun env (S fuel) apiKey runId start w
  = Server.pollRun env fuel apiKey runId start w'.
Proof.
  intros Hle Hb. cbn [Server.pollRun].
  destruct (Z.gtb_spec (now w - start) Server.maxWaitTime); [lia|].
  rewrite Hb. reflexivity.
Qed.

Lemma server_loop_end (fuel : nat) (start : Z) (w w' : World) (r : Result value) :
  now w - start <= Server.maxWaitTime ->
  Server.pollRun_body env apiKey runId w
  = (match r with Ok v => Ok (Some v) | Throw e => Throw e end, w') ->
  Server.pollRun env (S fuel) apiKey runId start w = Some (r, w').
Proof.
  intros Hle Hb. cbn [Server.pollRun].
  destruct (Z.gtb_spec (now w - start) Server.maxWaitTime); [lia|].
  rewrite Hb. destruct r; reflexivity.
Qed.

Lemma server_loop_deadline (fuel : nat) (start : Z) (w : World) :
  Server.maxWaitTime < now w - start ->
  Server.pollRun env fuel apiKey runId start w = Some (Throw Server.timeoutError, w).
Proof.
  intros Hgt.
  destruct fuel; cbn [Server.pollRun];
    destruct (Z.gtb_spec (now w - start) Server.maxWaitTime); try lia; reflexivity.
Qed.

(** While the run stays pending the client's loop ends, with the timeout
    error, at the first deadline test that reads an elapsed time of
    [maxWait] or more; every request it has issued was started before the
    deadline. *)
Lemma client_loop_times_out (start maxWait : Z) :
  staysPending env apiKey runId ->
  forall (fuel : nat) (w : World),
  maxWait - (now w - start) <= ApifyClient.pollInterval * Z.of_nat fuel ->
  exists w' issued,
    ApifyClient.waitForRun_loop env apiKey fuel runId start maxWait w
    = Some (Throw ApifyClient.timeoutError, w')
    /\ maxWait <= now w' - start
    /\ sent w' = (issued ++ sent w)%list
    /\ Forall (fun r => fst r - start < maxWait /\ snd r = runRequest apiKey runId) issued.
Proof.
  intros Hp. unfold ApifyClient.pollInterval.
  induction fuel as [|fuel IH]; intros w Hfuel.
  - exists w, []. rewrite client_loop_deadline by lia. repeat split; auto; lia.
  - destruct (Z.lt_ge_cases (now w - start) maxWait) as [Hlt|Hge].
    + destruct (Hp w) as (run & status & Ho & Hs & Hu).
      pose proof (client_turn_pending env apiKey runId w run status Ho Hs Hu) as Hb.
      rewrite (client_loop_continue _ _ _ _ _ Hlt Hb).
      destruct (IH (afterSleep env ApifyClient.pollInterval (fetched w)))
        as (w' & issued & Hrun & Hlate & Hsent & Hall).
      { unfold afterSleep, afterFetch, ApifyClient.pollInterval. cbn [now]. lia. }
      exists w', (issued ++ [(now w, runRequest apiKey runId)])%list.
      repeat split; auto.
      * rewrite Hsent. simpl. now rewrite <- app_assoc.
      * apply Forall_app. split; [assumption|]. constructor; [|constructor].
        simpl. split; [lia|reflexivity].
    + exists w, []. rewrite client_loop_deadline by lia. repeat split; auto.
Qed.

(** The same for the proxy's [pollRun], whose deadline test is strict: it
    ends, with its own timeout error, at the first test that reads an elapsed
    time above [maxWaitTime]; every request it has issued was started at an
    elapsed time of at most [maxWaitTime]. *)
Lemma server_loop_times_out (start : Z) :
  staysPending env apiKey runId ->
  forall (fuel : nat) (w : World),
  Server.maxWaitTime - (now w - start) < Server.pollInterval * Z.of_nat fuel ->
  exists w' issued,
    Server.pollRun env fuel apiKey runId start w = Some (Throw Server.timeoutError, w')
    /\ Server.maxWaitTime < now w' - start
    /\ sent w' = (issued ++ sent w)%list
    /\ Forall (fun r => fst r - start <= Server.maxWaitTime
                        /\ snd r = runRequest apiKey runId) issued.
Proof.
  intros Hp. unfold Server.pollInterval.
  induction fuel as [|fuel IH]; intros w Hfuel.
  - exists w, []. rewrite server_loop_deadline by lia. repeat split; auto; lia.
  - destruct (Z.lt_ge_cases Server.maxWaitTime (now w - start)) as [Hgt|Hle].
    + exists w, []. rewrite server_loop_deadline by lia. repeat split; auto.
    + destruct (Hp w) as (run & status & Ho & Hs & Hu).
      pose proof (server_turn_pending env apiKey runId w run status Ho Hs Hu) as Hb.
      rewrite (server_loop_continue _ _ _ _ Hle Hb).
      destruct (IH (afterSleep env Server.pollInterval (fetched w)))
        as (w' & issued & Hrun & Hlate & Hsent & Hall).
      { unfold afterSleep, afterFetch, Server.pollInterval. cbn [now]. lia. }
      exists w', (issued ++ [(now w, runRequest apiKey runId)])%list.
      repeat split; auto.
      * rewrite Hsent. simpl. now rewrite <- app_assoc.
      * apply Forall_app. split; [assumption|]. constructor; [|constructor].
        simpl. split; [lia|reflexivity].
Qed.

End Loops.

(** * The claims *)

Lemma unrecognized_string (s : string) :
  s <> "SUCCEEDED" -> ~ In s failureStatuses -> unrecognized (VStr s).
Proof.
  intros H1 H2. split.
  - intros [= E]. contradiction.
  - intros H. apply in_map_iff in H as (t & [= ->] & Hin). contradiction.
Qed.

Lemma unrecognized_not_string (v : value) :
  (forall s, v <> VStr s) -> unrecognized v.
Proof.
  intros H. split; [apply H|].
  intros Hin. apply in_map_iff in Hin as (t & E & _). now apply (H t).
Qed.

(** C4.  A run record whose status is neither SUCCEEDED nor one of FAILED,
    ABORTED, TIMED-OUT (READY, any other string, or no string at all) is
    taken as pending, by the client's loop and by the proxy's alike.

    The turn: a turn that observes such a record issues the run-status
    request, lets the poll interval of 2000 ms pass and yields nothing; and
    the loop, when its deadline test lets that turn begin, goes on from the
    world [w'] the turn leaves.

    The end: the loop does not fail on such a status.  If the run stays in
    such statuses, then with any amount of fuel above a bound the loop ends
    with its timeout error and with nothing else, at a deadline test that
    reads an elapsed time of [maxWait] or more (client), above 300000 ms
    (proxy); the requests it has issued by then are run-status requests,
    each started before (client) or not after (proxy) the deadline. *)
Theorem unrecognized_status_is_pending :
  forall (env : Env) (apiKey runId : string) (start maxWait : Z)
         (w : World) (run status : value),
    observes env apiKey runId w run ->
    get run "status" = Ok status ->
    unrecognized status ->
    let w' := afterSleep env 2000 (afterFetch env w (runRequest apiKey runId)) in
    (ApifyClient.waitForRun_body env apiKey runId w = (Ok None, w')
     /\ Server.pollRun_body env apiKey runId w = (Ok None, w'))
    /\ (forall fuel,
          now w - start < maxWait ->
          ApifyClient.waitForRun_loop env apiKey (S fuel) runId start maxWait w
          = ApifyClient.waitForRun_loop env apiKey fuel runId start maxWait w')
    /\ (forall fuel,
          now w - start <= Server.maxWaitTime ->
          Server.pollRun env (S fuel) apiKey runId start w
          = Server.pollRun env fuel apiKey runId start w')
    /\ (staysPending env apiKey runId ->
        exists n, forall fuel, (n <= fuel)%nat ->
        exists w'' issued,
          ApifyClient.waitForRun_loop env apiKey fuel runId start maxWait w
          = Some (Throw ApifyClient.timeoutError, w'')
          /\ maxWait <= now w'' - start
          /\ sent w'' = (issued ++ sent w)%list
          /\ Forall (fun r => fst r - start < maxWait
                              /\ snd r = runRequest apiKey runId) issued)
    /\ (staysPending env apiKey runId ->
        exists n, forall fuel, (n <= fuel)%nat ->
        exists w'' issued,
          Server.pollRun env fuel apiKey runId start w
          = Some (Throw Server.timeoutError, w'')
          /\ Server.maxWaitTime < now w'' - start
          /\ sent w'' = (issued ++ sent w)%list
          /\ Forall (fun r => fst r - start <= Server.maxWaitTime
                              /\ snd r = runRequest apiKey runId) issued).
Proof.
  intros env apiKey runId start maxWait w run status Ho Hs Hu w'.
  pose proof (client_turn_pending env apiKey runId w run status Ho Hs Hu) as Hc.
  pose proof (server_turn_pending env apiKey runId w run status Ho Hs Hu) as Hv.
  split; [split; assumption|]. split; [|split; [|split]].
  - intros fuel Hlt. now apply client_loop_continue.
  - intros fuel Hle. now apply server_loop_continue.
  - intros Hp. exists (Z.to_nat (maxWait - (now w - start))). intros fuel Hn.
    apply client_loop_times_out; [assumption|].
    unfold ApifyClient.pollInterval. lia.
  - intros Hp. exists (S (Z.to_nat (Server.maxWaitTime - (now w - start)))).
    intros fuel Hn.
    apply server_loop_times_out; [assumption|].
    unfold Server.pollInterval. lia.
Qed.

Lemma stuckIn_observes (status apiKey runId : string) (w : World) :
  observes (Scenario.stuckIn status) apiKey runId w (Scenario.runRecord status []).
Proof.
  exists (Scenario.data (Scenario.runRecord status [])). split; [|reflexivity].
  eexists. repeat split; reflexivity.
Qed.

Lemma stuckIn_staysPending (status apiKey runId : string) :
  unrecognized (VStr status) -> staysPending (Scenario.stuckIn status) apiKey runId.
Proof.
  intros Hu w. exists (Scenario.runRecord status []), (VStr status).
  split; [apply stuckIn_observes|]. split; [reflexivity|assumption].
Qed.

Lemma READY_unrecognized : unrecognized (VStr "READY").
Proof.
  apply unrecognized_string; [discriminate|].
  simpl. intros [H|[H|[H|[]]]]; discriminate.
Qed.

Lemma unrecognized_status_is_pending_witness :
  let env := Scenario.stuckIn "READY" in
  let w0 := Scenario.world0 in
  let w' := afterSleep env 2000 (afterFetch env w0 (runRequest "key" "run_1")) in
  (ApifyClient.waitForRun_body env "key" "run_1" w0 = (Ok None, w')
   /\ Server.pollRun_body env "key" "run_1" w0 = (Ok None, w'))
  /\ now w' = 2000
  /\ sent w' = [(0, runRequest "key" "run_1")]
  /\ ApifyClient.waitForRun_loop env "key" 1 "run_1" 0 1000 w0
     = ApifyClient.waitForRun_loop env "key" 0 "run_1" 0 1000 w'
  /\ Server.pollRun env 1 "key" "run_1" 0 w0 = Server.pollRun env 0 "key" "run_1" 0 w'
  /\ (exists n, forall fuel, (n <= fuel)%nat ->
      exists w'' issued,
        ApifyClient.waitForRun_loop env "key" fuel "run_1" 0 1000 w0
        = Some (Throw ApifyClient.timeoutError, w'')
        /\ 1000 <= now w'' - 0
        /\ sent w'' = (issued ++ sent w0)%list
        /\ Forall (fun r => fst r - 0 < 1000 /\ snd r = runRequest "key" "run_1") issued)
  /\ (exists n, forall fuel, (n <= fuel)%nat ->
      exists w'' issued,
        Server.pollRun env fuel "key" "run_1" 0 w0
        = Some (Throw Server.timeoutError, w'')
        /\ Server.maxWaitTime < now w'' - 0
        /\ sent w'' = (issued ++ sent w0)%list
        /\ Forall (fun r => fst r - 0 <= Server.maxWaitTime
                            /\ snd r = runRequest "key" "run_1") issued).
Proof.
  intros env w0 w'.
  destruct (unrecognized_status_is_pending env "key" "run_1" 0 1000 w0
              (Scenario.runRecord "READY" []) (VStr "READY"))
    as (H1 & H2 & H3 & H4 & H5).
  - apply stuckIn_observes.
  - reflexivity.
  - exact READY_unrecognized.
  - split; [exact H1|]. split; [reflexivity|]. split; [reflexivity|].
    split; [apply H2; simpl; lia|].
    split; [apply H3; simpl; unfold Server.maxWaitTime; lia|].
    split; [apply H4|apply H5]; apply stuckIn_staysPending; exact READY_unrecognized.
Defined.

(** The last scenario of the specification, on the client: with a budget of
    1000 ms and the fixed poll interval of 2000 ms, a first poll that finds
    the run pending is followed by the timeout error, and the one request of
    that poll is the only one issued. *)
Lemma client_short_budget :
  forall (env : Env) (apiKey runId : string) (fuel : nat) (w : World) (run status : value),
    observes env apiKey runId w run ->
    get run "status" = Ok status ->
    unrecognized status ->
    exists w',
      ApifyClient.waitForRun env apiKey (S fuel) runId 1000 w
      = Some (Throw ApifyClient.timeoutError, w')
      /\ sent w' = (now w, runRequest apiKey runId) :: sent w.
Proof.
  intros env apiKey runId fuel w run status Ho Hs Hu.
  exists (afterSleep env ApifyClient.pollInterval (afterFetch env w (runRequest apiKey runId))).
  unfold ApifyClient.waitForRun. split; [|reflexivity].
  rewrite client_loop_continue
    with (w' := afterSleep env ApifyClient.pollInterval
                           (afterFetch env w (runRequest apiKey runId))).
  - apply client_loop_deadline.
    unfold afterSleep, afterFetch, ApifyClient.pollInterval. cbn [now]. lia.
  - lia.
  - now apply client_turn_pending with (run := run) (status := status).
Qed.

(** The client's poller meets the deadline as stated: while the run stays
    pending, [waitForRun] ends with the timeout error at a deadline test that
    reads an elapsed time of at least [maxWaitTime], and each request it has
    issued was started at an elapsed time below [maxWaitTime]. *)
Lemma client_waitForRun_times_out :
  forall (env : Env) (apiKey runId : string) (maxWaitTime : Z) (w : World),
    staysPending env apiKey runId ->
    exists n, forall fuel, (n <= fuel)%nat ->
    exists w' issued,
      ApifyClient.waitForRun env apiKey fuel runId maxWaitTime w
      = Some (Throw ApifyClient.timeoutError, w')
      /\ maxWaitTime <= now w' - now w
      /\ sent w' = (issued ++ sent w)%list
      /\ Forall (fun r => fst r - now w < maxWaitTime) issued.
Proof.
  intros env apiKey runId maxWaitTime w Hp.
  exists (Z.to_nat maxWaitTime). intros fuel Hn.
  destruct (client_loop_times_out env apiKey runId (now w) maxWaitTime Hp fuel w)
    as (w' & issued & Hrun & Hlate & Hsent & Hall).
  - unfold ApifyClient.pollInterval. lia.
  - exists w', issued. repeat split; auto.
    eapply Forall_impl; [|exact Hall]. now intros r [H _].
Qed.

(** The proxy's deadline test is strict: a test that reads an elapsed time of
    exactly [maxWaitTime] lets the poll through, and the request of that poll
    is started at the deadline. *)
Lemma proxy_polls_when_elapsed_equals_budget :
  forall (env : Env) (apiKey runId : string) (fuel : nat) (start : Z) (w : World)
         (run status : value),
    now w - start = Server.maxWaitTime ->
    observes env apiKey runId w run ->
    get run "status" = Ok status ->
    unrecognized status ->
    let w' := afterSleep env 2000 (afterFetch env w (runRequest apiKey runId)) in
    Server.pollRun env (S fuel) apiKey runId start w = Server.pollRun env fuel apiKey runId start w'
    /\ hd_error (sent w') = Some (start + Server.maxWaitTime, runRequest apiKey runId).
Proof.
  intros env apiKey runId fuel start w run status Heq Ho Hs Hu w'. split.
  - apply server_loop_continue; [lia|].
    now apply server_turn_pending with (run := run) (status := status).
  - unfold w', afterSleep, afterFetch. cbn [sent hd_error]. do 2 f_equal. lia.
Qed.

(** C1.  The proxy's wait endpoint on a run that stays RUNNING, with
    immediate replies and exact timers, entered at clock reading 0: its 151st
    deadline test reads an elapsed time of exactly 300000 ms and lets the
    poll through, so a run-status request is started at the deadline, and
    the timeout error comes only at 302000 ms.  The client's [waitForRun]
    with the same budget on the same surroundings stops at 300000 ms after
    150 requests, none started at the deadline. *)
Theorem proxy_polls_at_the_deadline :
  (exists w',
     Server.waitRoute Scenario.stillRunning 152 "key" "run_1" Scenario.world0
     = Some (Server.Next Server.timeoutError, w')
     /\ now w' = 302000
     /\ List.length (sent w') = 151%nat
     /\ hd_error (sent w') = Some (300000, runRequest "key" "run_1"))
  /\
  (exists w',
     ApifyClient.waitForRun Scenario.stillRunning "key" 152 "run_1" 300000 Scenario.world0
     = Some (Throw ApifyClient.timeoutError, w')
     /\ now w' = 300000
     /\ List.length (sent w') = 150%nat
     /\ hd_error (sent w') = Some (298000, runRequest "key" "run_1")).
Proof.
  split; eexists; (split; [vm_compute; reflexivity|]); repeat split; reflexivity.
Qed.

(** ** The listing *)

Lemma mapActor_object (fields : list (string * value)) :
  ApifyClient.mapActor (VObj fields)
  = Ok (VObj [("id", lookup "id" fields);
              ("name", lookup "name" fields);
              ("title", or_else (lookup "title" fields) (lookup "name" fields));
              ("description",
               or_else (lookup "description" fields) (VStr "No description available"));
              ("stats", or_else (lookup "stats" fields) (VObj [("totalRuns", VNum 0)]))]).
Proof. reflexivity. Qed.

Lemma mapResult_objects (f : value -> Result value) (g : list (string * value) -> value)
  (records : list (list (string * value))) :
  (forall fields, f (VObj fields) = Ok (g fields)) ->
  mapResult f (map VObj records) = Ok (map g records).
Proof.
  intros Hf. induction records as [|fields records IH]; simpl; [reflexivity|].
  rewrite Hf, IH. reflexivity.
Qed.

Lemma server_mapActor_same (actor : value) :
  Server.mapActor actor = ApifyClient.mapActor actor.
Proof. reflexivity. Qed.

(** C9.  When the listing request is answered with records (objects), the
    client's [getActors] returns one summary per record, in order, and so
    does the proxy's route; a summary has the record's [id] and [name]; its
    [title] is the record's [name] when the record has no [title], its
    [description] is "No description available" when the record has none, and
    its [stats] is {totalRuns: 0} when the record has none; a field that is
    there with a truthy value is kept. *)
Theorem listing_substitutes_defaults :
  forall (env : Env) (apiKey : string) (w : World) (body : value)
         (records : list (list (string * value))),
    answersJson env w (platformRequest apiKey "/acts?my=true&limit=100" noOptions) body ->
    andThen (get body "data") (fun d => get d "items") = Ok (VArr (map VObj records)) ->
    exists summaries,
      fst (ApifyClient.getActors env apiKey w) = Ok (VArr summaries)
      /\ fst (Server.actorsRoute env apiKey w)
         = Server.ResJson 200 (VObj [("data", VArr summaries)])
      /\ Forall2
           (fun record summary =>
              getOpt summary "id" = lookup "id" record
              /\ getOpt summary "name" = lookup "name" record
              /\ (lookup "title" record = VUndefined ->
                  getOpt summary "title" = lookup "name" record)
              /\ (lookup "description" record = VUndefined ->
                  getOpt summary "description" = VStr "No description available")
              /\ (lookup "stats" record = VUndefined ->
                  getOpt summary "stats" = VObj [("totalRuns", VNum 0)])
              /\ (forall k, In k ["title"; "description"; "stats"] ->
                  truthy (lookup k record) = true ->
                  getOpt summary k = lookup k record))
           records summaries.
Proof.
  intros env apiKey w body records (r & Hs & Hok & Hb) Hitems.
  pose (g := fun fields : list (string * value) =>
    VObj [("id", lookup "id" fields);
          ("name", lookup "name" fields);
          ("title", or_else (lookup "title" fields) (lookup "name" fields));
          ("description",
           or_else (lookup "description" fields) (VStr "No description available"));
          ("stats", or_else (lookup "stats" fields) (VObj [("totalRuns", VNum 0)]))]).
  exists (map g records).
  destruct (get body "data") as [d|e] eqn:Hd; [|discriminate Hitems].
  simpl in Hitems.
  split; [|split].
  - unfold ApifyClient.getActors, tryCatch, bind, lift.
    rewrite apify_makeRequest_eq, Hs, Hok. unfold parseBody. rewrite Hb, Hd, Hitems.
    unfold arrayMap. rewrite (mapResult_objects _ g) by apply mapActor_object.
    reflexivity.
  - unfold Server.actorsRoute, Server.handle, bind, lift.
    rewrite server_makeApifyRequest_eq, Hs, Hok. unfold parseBody. rewrite Hb, Hd, Hitems.
    unfold arrayMap. rewrite (mapResult_objects _ g) by apply mapActor_object.
    reflexivity.
  - clear. induction records as [|record records IH]; simpl; constructor; [|exact IH].
    unfold g, or_else. simpl.
    repeat split; try (intros ->; reflexivity).
    intros k [<- | [<- | [<- | []]]] Ht; simpl; now rewrite Ht.
Qed.

Lemma listing_substitutes_defaults_witness :
  exists summaries,
    fst (ApifyClient.getActors (Scenario.always 200 "OK" (Json Scenario.listing)) "key"
                               Scenario.world0)
    = Ok (VArr summaries)
    /\ fst (Server.actorsRoute (Scenario.always 200 "OK" (Json Scenario.listing)) "key"
                               Scenario.world0)
       = Server.ResJson 200 (VObj [("data", VArr summaries)])
    /\ Forall2
         (fun record summary =>
            getOpt summary "id" = lookup "id" record
            /\ getOpt summary "name" = lookup "name" record
            /\ (lookup "title" record = VUndefined ->
                getOpt summary "title" = lookup "name" record)
            /\ (lookup "description" record = VUndefined ->
                getOpt summary "description" = VStr "No description available")
            /\ (lookup "stats" record = VUndefined ->
                getOpt summary "stats" = VObj [("totalRuns", VNum 0)])
            /\ (forall k, In k ["title"; "description"; "stats"] ->
                truthy (lookup k record) = true ->
                getOpt summary k = lookup k record))
         [Scenario.bareActor] summaries.
Proof.
  apply (listing_substitutes_defaults
           (Scenario.always 200 "OK" (Json Scenario.listing)) "key" Scenario.world0
           Scenario.listing [Scenario.bareActor]).
  - eexists. repeat split; reflexivity.
  - reflexivity.
Defined.

(** The record of the specification's example, evaluated. *)
Lemma listing_bare_record :
  fst (ApifyClient.getActors (Scenario.always 200 "OK" (Json Scenario.listing)) "key"
                             Scenario.world0)
  = Ok (VArr [VObj [("id", VStr "abc"); ("name", VStr "crawler");
                    ("title", VStr "crawler");
                    ("description", VStr "No description available");
                    ("stats", VObj [("totalRuns", VNum 0)])]]).
Proof. reflexivity. Qed.

(** ** The success path *)

(** A request fails, in the sense of [requestFails], exactly when the
    transport throws. *)
Lemma requestFails_throws (env : Env) (apiKey endpoint : string) (options : RequestInit)
  (w : World) :
  requestFails env w (platformRequest apiKey endpoint options) <->
  exists e, fst (ApifyClient.makeRequest env apiKey endpoint options w) = Throw e.
Proof.
  rewrite apify_makeRequest_eq. unfold requestFails. simpl.
  destruct (settled _) as [e|r].
  - split; eauto.
  - destruct (resp_ok r).
    + unfold parseBody. destruct (resp_body r) as [v|msg].
      * split; [intros [H|[m H]]; discriminate | intros [e H]; discriminate].
      * split; eauto.
    + split; eauto.
Qed.




(** ** The failure path *)

Lemma failedWith_observes (statusMessage : string) (w : World) :
  observes (Scenario.failedWith statusMessage) "key" "run_1" w
           (Scenario.runRecord "FAILED" [("statusMessage", VStr statusMessage)]).
Proof.
  exists (Scenario.data (Scenario.runRecord "FAILED" [("statusMessage", VStr statusMessage)])).
  split; [|reflexivity]. eexists. repeat split; reflexivity.
Qed.

(** C3, as stated, fails on a record whose [statusMessage] is there and
    empty.  The run record with status FAILED and the empty text as its
    [statusMessage] has the field, so the stated message is the empty text;
    the error that either poller throws carries the fixed text instead. *)
Lemma empty_statusMessage_is_replaced :
  let run := Scenario.runRecord "FAILED" [("statusMessage", VStr EmptyString)] in
  observes (Scenario.failedWith EmptyString) "key" "run_1" Scenario.world0 run
  /\ get run "status" = Ok (VStr "FAILED")
  /\ get run "statusMessage" = Ok (VStr EmptyString)
  /\ (exists w',
        ApifyClient.waitForRun (Scenario.failedWith EmptyString) "key" 1 "run_1" 300000
                               Scenario.world0
        = Some (Throw (newError "Actor run failed: No error message available"), w'))
  /\ (exists w',
        Server.pollRun (Scenario.failedWith EmptyString) 1 "key" "run_1" 0 Scenario.world0
        = Some (Throw (newError "Actor run failed: No error message available"), w'))
  /\ newError "Actor run failed: No error message available"
     <> newError ("Actor run " ++ "failed" ++ ": " ++ EmptyString).
Proof.
  intros run. split; [apply failedWith_observes|].
  repeat split; try reflexivity; try (eexists; vm_compute; reflexivity).
  discriminate.
Qed.

(** C3, amended.  For a run record whose status is FAILED, ABORTED or
    TIMED-OUT both pollers throw an [Error] whose message is the text
    "Actor run <detail>: <message>", where <detail> is the status in lower
    case (failed, aborted, timed-out) and <message> is the record's
    [statusMessage] when that is truthy (for a string: when it is not empty),
    and "No error message available" when it is missing, null or empty. *)
Theorem run_failure_error :
  forall (env : Env) (apiKey runId : string) (fuel : nat) (start maxWait : Z)
         (w : World) (run : value) (s : string),
    observes env apiKey runId w run ->
    get run "status" = Ok (VStr s) ->
    In s failureStatuses ->
    let detail := toLowerCase s in
    let message :=
      if truthy (getOpt run "statusMessage") then toString (getOpt run "statusMessage")
      else "No error message available" in
    let error := newError ("Actor run " ++ detail ++ ": " ++ message) in
    In (s, detail) [("FAILED", "failed"); ("ABORTED", "aborted"); ("TIMED-OUT", "timed-out")]
    /\ (forall m, getOpt run "statusMessage" = VStr m -> m <> EmptyString -> message = m)
    /\ (In (getOpt run "statusMessage") [VUndefined; VNull; VStr EmptyString] ->
        message = "No error message available")
    /\ (now w - start < maxWait ->
        ApifyClient.waitForRun_loop env apiKey (S fuel) runId start maxWait w
        = Some (Throw error, afterFetch env w (runRequest apiKey runId)))
    /\ (now w - start <= Server.maxWaitTime ->
        Server.pollRun env (S fuel) apiKey runId start w
        = Some (Throw error, afterFetch env w (runRequest apiKey runId))).
Proof.
  intros env apiKey runId fuel start maxWait w run s Ho Hs Hin detail message error.
  assert (Herr : newError ("Actor run " ++ toLowerCase s ++ ": "
                   ++ toString (or_else (getOpt run "statusMessage")
                                        (VStr "No error message available"))) = error).
  { unfold error, message, detail, or_else.
    now destruct (truthy (getOpt run "statusMessage")). }
  split; [|split; [|split; [|split]]].
  - unfold detail. simpl in Hin. destruct Hin as [<- | [<- | [<- | []]]]; simpl; auto.
  - intros m Hm Hne. unfold message. rewrite Hm. simpl.
    apply String.eqb_neq in Hne. now rewrite Hne.
  - unfold message. simpl. intros [<- | [<- | [<- | []]]]; reflexivity.
  - intros Hlt.
    apply (client_loop_end env apiKey runId fuel start maxWait w _ (Throw error));
      [assumption|].
    rewrite <- Herr. now apply client_turn_failed.
  - intros Hle.
    apply (server_loop_end env apiKey runId fuel start w _ (Throw error)); [assumption|].
    rewrite <- Herr. now apply server_turn_failed.
Qed.

(** Scenario B of the specification: status FAILED with the message
    "bad input". *)
Lemma run_failure_error_witness :
  let env := Scenario.failedWith "bad input" in
  let error := newError "Actor run failed: bad input" in
  ApifyClient.waitForRun_loop env "key" 1 "run_1" 0 300000 Scenario.world0
  = Some (Throw error, afterFetch env Scenario.world0 (runRequest "key" "run_1"))
  /\ Server.pollRun env 1 "key" "run_1" 0 Scenario.world0
     = Some (Throw error, afterFetch env Scenario.world0 (runRequest "key" "run_1")).
Proof.
  intros env error.
  destruct (run_failure_error env "key" "run_1" 0 0 300000 Scenario.world0
              (Scenario.runRecord "FAILED" [("statusMessage", VStr "bad input")]) "FAILED"
              (failedWith_observes "bad input" _) eq_refl (or_introl eq_refl))
    as (_ & _ & _ & Hc & Hs).
  split; [apply Hc | apply Hs]; simpl; unfold Server.maxWaitTime; lia.
Defined.

(** ** The dataset of a successful run *)

Section Dataset.

Variable env : Env.
Variable apiKey : string.
Variable runId : string.

Lemma makeRequest_answersJson (endpoint : string) (w : World) (v : value) :
  answersJson env w (platformRequest apiKey endpoint noOptions) v ->
  ApifyClient.makeRequest env apiKey endpoint noOptions w
  = (Ok v, afterFetch env w (platformRequest apiKey endpoint noOptions))
  /\ Server.makeApifyRequest env endpoint apiKey noOptions w
     = (Ok v, afterFetch env w (platformRequest apiKey endpoint noOptions)).
Proof.
  intros (r & Hs & Hok & Hb).
  rewrite apify_makeRequest_eq, server_makeApifyRequest_eq, Hs, Hok.
  unfold parseBody. rewrite Hb. split; reflexivity.
Qed.





End Dataset.




Lemma runningThenSucceeded_observes (w : World) :
  sent w <> [] ->
  observes Scenario.runningThenSucceeded "key" "run_1" w
           (Scenario.runRecord "SUCCEEDED" [("defaultDatasetId", VStr "ds_1")]).
Proof.
  intros Hsent.
  exists (Scenario.data (Scenario.runRecord "SUCCEEDED" [("defaultDatasetId", VStr "ds_1")])).
  split; [|reflexivity].
  unfold answersJson, Scenario.runningThenSucceeded. cbn [respond].
  change (Scenario.isRunUrl (runRequest "key" "run_1")) with true. cbv iota.
  destruct (sent w); [contradiction|].
  eexists. repeat split; reflexivity.
Qed.


(** Scenario A of the specification, run from the start on both pollers. *)
Lemma scenario_A :
  let run := Scenario.runRecord "SUCCEEDED" [("defaultDatasetId", VStr "ds_1")] in
  let result := outcome run Scenario.itemsX (VStr "SUCCEEDED") VUndefined VUndefined in
  (exists w',
     ApifyClient.waitForRun Scenario.runningThenSucceeded "key" 2 "run_1" 300000
                            Scenario.world0
     = Some (Ok result, w') /\ List.length (sent w') = 4%nat)
  /\ (exists w',
        Server.waitRoute Scenario.runningThenSucceeded 2 "key" "run_1" Scenario.world0
        = Some (Server.ResJson 200 (VObj [("data", result)]), w')
        /\ List.length (sent w') = 3%nat).
Proof.
  intros run result. split; eexists; (split; [vm_compute; reflexivity|reflexivity]).
Qed.

(** ** Transport failures *)

Lemma failureMessage_eq (r : Response) :
  failureMessage r
  = if truthy (errorField r) then toString (errorField r) else statusLine r.
Proof.
  unfold failureMessage, errorField, parseBody.
  destruct (resp_body r) as [v|msg]; [|reflexivity].
  destruct v; simpl; try reflexivity.
  unfold or_else. destruct (truthy _); reflexivity.
Qed.

Lemma api_makeRequest_failure (env : Env) (apiKey base endpoint : string)
  (options : RequestInit) (w : World) (r : Response) :
  settled (respond env w (proxyRequest base apiKey endpoint options)) = Resolved r ->
  resp_ok r = false ->
  resp_body r <> Json VNull ->
  resp_body r <> Json VUndefined ->
  fst (ApiClient.makeRequest env apiKey base endpoint options w)
  = Throw (ApiClient.newApiError
             (if truthy (errorField r) then toString (errorField r) else statusLine r)
             (resp_status r)).
Proof.
  intros Hs Hok Hnull Hundef.
  unfold ApiClient.makeRequest, ApiClient.makeRequest_try, ApiClient.makeRequest_catch,
    tryCatch, bind, fetch, lift, throw.
  change (mkRequest _ _ _ _) with (proxyRequest base apiKey endpoint options).
  rewrite Hs, Hok. cbn [negb]. cbv beta iota.
  unfold errorField, parseBody, statusLine.
  destruct (resp_body r) as [v|msg].
  - destruct v; try congruence; simpl; unfold or_else;
      try reflexivity.
    destruct (truthy _); reflexivity.
  - reflexivity.
Qed.

Lemma api_makeRequest_rejected (env : Env) (apiKey base endpoint : string)
  (options : RequestInit) (w : World) (e : jsError) :
  settled (respond env w (proxyRequest base apiKey endpoint options)) = Rejected e ->
  instanceofApiError e = false ->
  fst (ApiClient.makeRequest env apiKey base endpoint options w)
  = Throw (ApiClient.newApiError (err_message e) 0).
Proof.
  intros Hs He.
  unfold ApiClient.makeRequest, ApiClient.makeRequest_try, ApiClient.makeRequest_catch,
    tryCatch, bind, fetch, lift, throw.
  change (mkRequest _ _ _ _) with (proxyRequest base apiKey endpoint options).
  rewrite Hs, He. unfold instanceofError. destruct (err_class e); reflexivity.
Qed.

(** The body of an ok response is parsed after the [try] statement of the
    frontend's [makeRequest] has been left: when it is not JSON, the
    [SyntaxError] of the parser is what [makeRequest] throws. *)
Lemma api_makeRequest_unparseable (env : Env) (apiKey base endpoint : string)
  (options : RequestInit) (w : World) (r : Response) (msg : string) :
  settled (respond env w (proxyRequest base apiKey endpoint options)) = Resolved r ->
  resp_ok r = true ->
  resp_body r = NotJson msg ->
  fst (ApiClient.makeRequest env apiKey base endpoint options w)
  = Throw (mkError ESyntaxError msg None).
Proof.
  intros Hs Hok Hb.
  unfold ApiClient.makeRequest, ApiClient.makeRequest_try, ApiClient.makeRequest_catch,
    tryCatch, bind, fetch, lift, throw.
  change (mkRequest _ _ _ _) with (proxyRequest base apiKey endpoint options).
  rewrite Hs, Hok. cbn [negb]. cbv beta iota. unfold ret, parseBody. rewrite Hb. reflexivity.
Qed.

(** C7, as stated, fails on a body that parses and has the field with an
    empty text.  The response 500 Internal Server Error whose JSON body has
    the empty text as its [error.message] has the field, so the stated
    message is the empty text; the error raised by each of the three
    transports carries the status line instead. *)
Lemma empty_error_message_is_replaced :
  let r := mkResponse 500 "Internal Server Error" (Scenario.errorBody EmptyString) in
  let env := Scenario.always 500 "Internal Server Error" (Scenario.errorBody EmptyString) in
  resp_ok r = false
  /\ parseBody r = Ok (VObj [("error", VObj [("message", VStr EmptyString)])])
  /\ errorField r = VStr EmptyString
  /\ fst (ApifyClient.makeRequest env "key" "/acts/abc" noOptions Scenario.world0)
     = Throw (newError "HTTP 500: Internal Server Error")
  /\ fst (Server.makeApifyRequest env "/acts/abc" "key" noOptions Scenario.world0)
     = Throw (mkError EError "HTTP 500: Internal Server Error" (Some 500))
  /\ fst (ApiClient.makeRequest env "key" Scenario.localProxy "/apify/actors/abc/schema"
                                noOptions Scenario.world0)
     = Throw (ApiClient.newApiError "HTTP 500: Internal Server Error" 500)
  /\ "HTTP 500: Internal Server Error" <> EmptyString.
Proof.
  intros r env. repeat split; try reflexivity. discriminate.
Qed.

(** C7, amended.  For a response whose status is not a success, the message
    of the error is the [error.message] of the parsed body when that value is
    truthy (for a text: when it is not empty), and "HTTP <status>:
    <statusText>" otherwise, that is when the body is not JSON, has no such
    field, or has it null or empty.  The browser-side client throws a plain
    [Error] with that message, the proxy an [Error] with that message and the
    HTTP status, and the frontend client, for a body other than null, an
    [ApiError] with that message and the HTTP status.  When [fetch] rejects,
    so that there is no HTTP response, the frontend client throws an
    [ApiError] with the message of the rejection and status 0. *)
Theorem transport_failure_message :
  forall (env : Env) (apiKey base endpoint : string) (options : RequestInit) (w : World)
         (r : Response),
    resp_ok r = false ->
    let message := if truthy (errorField r) then toString (errorField r) else statusLine r in
    (forall m, errorField r = VStr m -> m <> EmptyString -> message = m)
    /\ (In (errorField r) [VUndefined; VNull; VStr EmptyString] -> message = statusLine r)
    /\ (settled (respond env w (platformRequest apiKey endpoint options)) = Resolved r ->
        fst (ApifyClient.makeRequest env apiKey endpoint options w) = Throw (newError message)
        /\ fst (Server.makeApifyRequest env endpoint apiKey options w)
           = Throw (mkError EError message (Some (resp_status r))))
    /\ (settled (respond env w (proxyRequest base apiKey endpoint options)) = Resolved r ->
        resp_body r <> Json VNull ->
        resp_body r <> Json VUndefined ->
        fst (ApiClient.makeRequest env apiKey base endpoint options w)
        = Throw (ApiClient.newApiError message (resp_status r)))
    /\ (forall e,
        settled (respond env w (proxyRequest base apiKey endpoint options)) = Rejected e ->
        instanceofApiError e = false ->
        fst (ApiClient.makeRequest env apiKey base endpoint options w)
        = Throw (ApiClient.newApiError (err_message e) 0)).
Proof.
  intros env apiKey base endpoint options w r Hok message.
  split; [|split; [|split; [|split]]].
  - intros m Hm Hne. unfold message. rewrite Hm. simpl.
    apply String.eqb_neq in Hne. now rewrite Hne.
  - unfold message. simpl. intros [<- | [<- | [<- | []]]]; reflexivity.
  - intros Hs. rewrite apify_makeRequest_eq, server_makeApifyRequest_eq, Hs, Hok.
    rewrite failureMessage_eq. split; reflexivity.
  - intros Hs Hnull Hundef. now apply api_makeRequest_failure.
  - intros e Hs He. now apply api_makeRequest_rejected.
Qed.

(** A 404 whose body carries a message. *)
Lemma transport_failure_message_witness :
  let env := Scenario.always 404 "Not Found" (Scenario.errorBody "Actor not found") in
  fst (ApifyClient.makeRequest env "key" "/acts/abc" noOptions Scenario.world0)
  = Throw (newError "Actor not found")
  /\ fst (Server.makeApifyRequest env "/acts/abc" "key" noOptions Scenario.world0)
     = Throw (mkError EError "Actor not found" (Some 404))
  /\ fst (ApiClient.makeRequest env "key" Scenario.localProxy "/acts/abc" noOptions
                                Scenario.world0)
     = Throw (ApiClient.newApiError "Actor not found" 404).
Proof.
  intros env.
  destruct (transport_failure_message env "key" Scenario.localProxy "/acts/abc" noOptions
              Scenario.world0
              (mkResponse 404 "Not Found" (Scenario.errorBody "Actor not found")) eq_refl)
    as (_ & _ & H1 & H2 & _).
  destruct (H1 eq_refl) as [Ha Hb].
  split; [exact Ha|]. split; [exact Hb|].
  apply H2; [reflexivity| |]; discriminate.
Defined.

(** ** The frontend's request layer *)

(** C10.  The frontend's [makeRequest] on a response 200 OK whose body is
    not JSON (an HTML page, say): what it throws is the parser's
    [SyntaxError], which is not an [ApiError] and has no status.  A [fetch]
    that rejects, for comparison, is turned into an [ApiError] with status
    0. *)
Theorem unparseable_success_body_escapes :
  let html := Scenario.always 200 "OK" (NotJson "Unexpected token < in JSON at position 0") in
  let thrown := mkError ESyntaxError "Unexpected token < in JSON at position 0" None in
  fst (ApiClient.makeRequest html "key" Scenario.localProxy "/apify/actors" noOptions
                             Scenario.world0)
  = Throw thrown
  /\ instanceofApiError thrown = false
  /\ err_status thrown = None
  /\ fst (ApiClient.getActors html "key" Scenario.localProxy Scenario.world0)
     = Throw (newError "Failed to fetch actors: Unexpected token < in JSON at position 0")
  /\ fst (ApiClient.makeRequest Scenario.unreachable "key" Scenario.localProxy
                                "/apify/actors" noOptions Scenario.world0)
     = Throw (ApiClient.newApiError "Failed to fetch" 0).
Proof.
  intros html thrown. repeat split; reflexivity.
Qed.

(** ** The schema accessor *)

(** C8, as stated, fails: the failure for a definition without an input
    schema is the very exception that a transport failure produces when the
    remote refuses the request with the same words.  In the first
    surroundings the definition is fetched and has no schema; in the second
    the request fails with 404 and the body
    {"error":{"message":"No input schema found for this actor"}} (the answer
    the proxy's own schema route gives); [getActorSchema] throws the same
    exception in both, and so does the frontend client's [getActorSchema],
    for which the missing schema is that transport failure. *)
Lemma no_schema_same_as_transport_failure :
  let lacking := Scenario.always 200 "OK" (Json Scenario.actorWithoutSchema) in
  let refused :=
    Scenario.always 404 "Not Found" (Scenario.errorBody "No input schema found for this actor") in
  let req := platformRequest "key" "/acts/abc" noOptions in
  answersJson lacking Scenario.world0 req Scenario.actorWithoutSchema
  /\ requestFails refused Scenario.world0 req
  /\ fst (ApifyClient.makeRequest refused "key" "/acts/abc" noOptions Scenario.world0)
     = Throw (newError "No input schema found for this actor")
  /\ fst (ApifyClient.getActorSchema lacking "key" "abc" Scenario.world0)
     = Throw (newError "Failed to fetch actor schema: No input schema found for this actor")
  /\ fst (ApifyClient.getActorSchema refused "key" "abc" Scenario.world0)
     = fst (ApifyClient.getActorSchema lacking "key" "abc" Scenario.world0)
  /\ fst (ApiClient.getActorSchema refused "key" Scenario.localProxy "abc" Scenario.world0)
     = fst (ApifyClient.getActorSchema lacking "key" "abc" Scenario.world0).
Proof.
  intros lacking refused req. split; [|split; [|repeat split; reflexivity]].
  - eexists. repeat split; reflexivity.
  - left. reflexivity.
Qed.

(** C8, amended.  When the fetched definition has no input schema (the
    nested field is absent, or falsy), the schema accessor throws an [Error]
    with the message "Failed to fetch actor schema: No input schema found for
    this actor".  When the transport fails during the same fetch with an
    exception [e], it throws an [Error] with the message "Failed to fetch
    actor schema: " followed by the message of [e].  Both are plain [Error]s:
    they differ by their message only, and they are the same exactly when the
    message of [e] is "No input schema found for this actor".  A definition
    with a schema yields the schema. *)
Theorem schema_accessor_failures :
  forall (env : Env) (apiKey actorId : string) (w : World),
    let noSchema :=
      newError "Failed to fetch actor schema: No input schema found for this actor" in
    (forall body definition options,
        answersJson env w (platformRequest apiKey ("/acts/" ++ actorId) noOptions) body ->
        get body "data" = Ok definition ->
        get definition "defaultRunOptions" = Ok options ->
        (truthy (getOpt options "inputSchema") = false ->
         fst (ApifyClient.getActorSchema env apiKey actorId w) = Throw noSchema)
        /\ (truthy (getOpt options "inputSchema") = true ->
            fst (ApifyClient.getActorSchema env apiKey actorId w)
            = Ok (getOpt options "inputSchema")))
    /\ (forall e,
        fst (ApifyClient.makeRequest env apiKey ("/acts/" ++ actorId) noOptions w) = Throw e ->
        fst (ApifyClient.getActorSchema env apiKey actorId w)
        = Throw (newError ("Failed to fetch actor schema: " ++ err_message e))
        /\ (newError ("Failed to fetch actor schema: " ++ err_message e) = noSchema
            <-> err_message e = "No input schema found for this actor")).
Proof.
  intros env apiKey actorId w noSchema. split.
  - intros body definition options Hans Hd Ho.
    destruct (makeRequest_answersJson env apiKey _ w body Hans) as [Hreq _].
    unfold ApifyClient.getActorSchema, tryCatch, bind.
    rewrite Hreq. unfold lift. rewrite Hd, Ho.
    split; intros ->; reflexivity.
  - intros e He. split.
    + unfold ApifyClient.getActorSchema, tryCatch, bind.
      destruct (ApifyClient.makeRequest env apiKey ("/acts/" ++ actorId) noOptions w)
        as [res w'].
      simpl in He. subst res. unfold throw. simpl.
      now rewrite messageOrUnknown_message.
    + unfold noSchema, newError. split.
      * intros [= H]. exact H.
      * intros ->. reflexivity.
Qed.

(** A definition without a schema, and a request refused with 401. *)
Lemma schema_accessor_failures_witness :
  fst (ApifyClient.getActorSchema
         (Scenario.always 200 "OK" (Json Scenario.actorWithoutSchema)) "key" "abc"
         Scenario.world0)
  = Throw (newError "Failed to fetch actor schema: No input schema found for this actor")
  /\ fst (ApifyClient.getActorSchema
            (Scenario.always 401 "Unauthorized" (Scenario.errorBody "Invalid token")) "key" "abc"
            Scenario.world0)
     = Throw (newError "Failed to fetch actor schema: Invalid token").
Proof.
  split.
  - destruct (schema_accessor_failures
                (Scenario.always 200 "OK" (Json Scenario.actorWithoutSchema)) "key" "abc"
                Scenario.world0) as [H _].
    refine (proj1 (H Scenario.actorWithoutSchema _ _ _ eq_refl eq_refl) eq_refl).
    eexists. repeat split; reflexivity.
  - destruct (schema_accessor_failures
                (Scenario.always 401 "Unauthorized" (Scenario.errorBody "Invalid token"))
                "key" "abc" Scenario.world0) as [_ H].
    exact (proj1 (H (newError "Invalid token") eq_refl)).
Defined.

(** ** The two pollers side by side *)

Lemma unrecognized_of_tests (status : value) :
  strictEqStr status "SUCCEEDED" = false ->
  existsb (strictEqStr status) failureStatuses = false ->
  unrecognized status.
Proof.
  intros H1 H2. split.
  - intros ->. discriminate H1.
  - intros Hin. apply existsb_strictEqStr_true in Hin. congruence.
Qed.

Section SideBySide.

Variable env : Env.
Variable apiKey : string.
Variable runId : string.

(** A record observed as SUCCEEDED names the same dataset when it is read
    again. *)
Hypothesis stable_record :
  forall w run,
    observes env apiKey runId w run ->
    get run "status" = Ok (VStr "SUCCEEDED") ->
    exists run',
      observes env apiKey runId (afterFetch env w (runRequest apiKey runId)) run'
      /\ get run' "defaultDatasetId" = get run "defaultDatasetId".

(** The dataset endpoint gives the same answer whenever it is asked. *)
Hypothesis stable_dataset :
  forall id w w',
    settled (respond env w (itemsRequest apiKey id))
    = settled (respond env w' (itemsRequest apiKey id)).

Local Abbreviation fetched w := (afterFetch env w (runRequest apiKey runId)) (only parsing).

(** Either the poll observes a record, or the reading of the record fails
    and the client wraps what the proxy throws. *)
Lemma run_read_cases (w : World) :
  (exists run, observes env apiKey runId w run)
  \/ (exists e,
        runReadFails env apiKey runId w e
        /\ ApifyClient.getRun env apiKey runId w
           = (Throw (newError ("Failed to fetch run details: " ++ err_message e)), fetched w)
        /\ forall B (k : value -> M B),
             (runResponse <- Server.makeApifyRequest env ("/actor-runs/" ++ runId) apiKey
                                                     noOptions ;;
              run <- lift (get runResponse "data") ;;
              k run) w
             = (Throw e, fetched w)).
Proof.
  unfold observes, answersJson, runReadFails, ApifyClient.getRun, tryCatch, bind, lift, throw.
  rewrite apify_makeRequest_eq, server_makeApifyRequest_eq.
  fold (runRequest apiKey runId).
  destruct (settled _) as [e|r] eqn:Hs.
  { right. exists e. rewrite messageOrUnknown_message. repeat split; reflexivity. }
  destruct (resp_ok r) eqn:Hok.
  2:{ right. exists (mkError EError (failureMessage r) (Some (resp_status r))).
      rewrite messageOrUnknown_message. repeat split; reflexivity. }
  unfold parseBody. destruct (resp_body r) as [v|msg] eqn:Hb.
  2:{ right. exists (mkError ESyntaxError msg None).
      rewrite messageOrUnknown_message. repeat split; reflexivity. }
  destruct (get v "data") as [run|e] eqn:Hd.
  - left. exists run, v. split; [exists r|]; auto.
  - right. exists e. rewrite messageOrUnknown_message. simpl. rewrite Hd.
    repeat split; reflexivity.
Qed.

Lemma datasets_agree (w : World) (run : value) :
  observes env apiKey runId w run ->
  get run "status" = Ok (VStr "SUCCEEDED") ->
  fst (ApifyClient.getRunDataset env apiKey runId (fetched w))
  = fst (Server.pollRun_dataset env apiKey run (fetched w)).
Proof.
  intros Ho Hs. destruct (stable_record w run Ho Hs) as (run' & Ho' & Hid').
  rewrite (get_getOpt _ _ "defaultDatasetId" _ Hs) in Hid'.
  unfold ApifyClient.getRunDataset, ApifyClient.getRunDataset_try,
    Server.pollRun_dataset, Server.pollRun_dataset_try, tryCatch, bind.
  rewrite (getRun_observes _ _ _ _ _ Ho'). unfold lift at 1 2.
  rewrite Hid', (get_getOpt _ _ "defaultDatasetId" _ Hs).
  destruct (truthy (getOpt run "defaultDatasetId")); [|reflexivity].
  cbn [negb]. cbv beta iota.
  rewrite apify_makeRequest_eq, server_makeApifyRequest_eq.
  fold (itemsRequest apiKey (getOpt run "defaultDatasetId")).
  rewrite (stable_dataset _ (fetched (fetched w)) (fetched w)).
  destruct (settled _) as [e|r]; [reflexivity|].
  destruct (resp_ok r); [|reflexivity].
  destruct (parseBody r); reflexivity.
Qed.

(** One turn of the client's loop against one turn of the proxy's, from the
    same world: what each does, by what the poll finds. *)
Lemma turns_alike (w : World) :
  let c := ApifyClient.waitForRun_body env apiKey runId w in
  let s := Server.pollRun_body env apiKey runId w in
  (c = (Ok None, afterSleep env 2000 (fetched w))
   /\ s = (Ok None, afterSleep env 2000 (fetched w)))
  \/ (exists run dataset w1 w2,
        observes env apiKey runId w run
        /\ get run "status" = Ok (VStr "SUCCEEDED")
        /\ ApifyClient.getRunDataset env apiKey runId (fetched w) = (Ok dataset, w1)
        /\ Server.pollRun_dataset env apiKey run (fetched w) = (Ok dataset, w2)
        /\ c = (Ok (Some (outcome run dataset (VStr "SUCCEEDED")
                                  (getOpt run "finishedAt") (getOpt run "stats"))), w1)
        /\ s = (Ok (Some (outcome run dataset (VStr "SUCCEEDED")
                                  (getOpt run "finishedAt") (getOpt run "stats"))), w2))
  \/ (exists run status,
        observes env apiKey runId w run
        /\ get run "status" = Ok (VStr status)
        /\ In status failureStatuses
        /\ c = (Throw (newError ("Actor run " ++ toLowerCase status ++ ": "
                                 ++ toString (or_else (getOpt run "statusMessage")
                                                      (VStr "No error message available")))),
                fetched w)
        /\ s = (Throw (newError ("Actor run " ++ toLowerCase status ++ ": "
                                 ++ toString (or_else (getOpt run "statusMessage")
                                                      (VStr "No error message available")))),
                fetched w))
  \/ (exists run e,
        observes env apiKey runId w run
        /\ get run "status" = Throw e
        /\ c = (Throw e, fetched w) /\ s = (Throw e, fetched w))
  \/ (exists e,
        runReadFails env apiKey runId w e
        /\ c = (Throw (newError ("Failed to fetch run details: " ++ err_message e)), fetched w)
        /\ s = (Throw e, fetched w)).
Proof.
  intros c s. subst c s.
  destruct (run_read_cases w) as [[run Ho] | (e & Hf & Hc & Hs)].
  2:{ do 4 right. exists e. split; [assumption|]. split.
      - unfold ApifyClient.waitForRun_body, bind. rewrite Hc. reflexivity.
      - unfold Server.pollRun_body. apply Hs. }
  destruct (get run "status") as [status|e] eqn:Hst.
  2:{ do 3 right; left. exists run, e. do 2 (split; [assumption|]). split.
      - unfold ApifyClient.waitForRun_body, bind.
        rewrite (getRun_observes _ _ _ _ _ Ho). unfold lift at 1. now rewrite Hst.
      - unfold Server.pollRun_body. rewrite (server_fetch_observes _ _ _ _ _ _ Ho).
        unfold bind, lift at 1. now rewrite Hst. }
  destruct (strictEqStr status "SUCCEEDED") eqn:Hsucc.
  { apply strictEqStr_true in Hsucc. subst status.
    right; left.
    destruct (getRunDataset_total env apiKey runId (fetched w)) as [dataset Hd].
    pose proof (datasets_agree w run Ho Hst) as Hsame. rewrite Hd in Hsame.
    exists run, dataset,
      (snd (ApifyClient.getRunDataset env apiKey runId (fetched w))),
      (snd (Server.pollRun_dataset env apiKey run (fetched w))).
    assert (Hcd : ApifyClient.getRunDataset env apiKey runId (fetched w)
                  = (Ok dataset, snd (ApifyClient.getRunDataset env apiKey runId (fetched w))))
      by (rewrite (surjective_pairing (ApifyClient.getRunDataset _ _ _ _)) at 1;
          now rewrite Hd).
    assert (Hsd : Server.pollRun_dataset env apiKey run (fetched w)
                  = (Ok dataset, snd (Server.pollRun_dataset env apiKey run (fetched w))))
      by (rewrite (surjective_pairing (Server.pollRun_dataset _ _ _ _)) at 1;
          now rewrite <- Hsame).
    do 4 (split; [assumption|]). split.
    - now apply client_turn_succeeded.
    - now apply server_turn_succeeded. }
  destruct (existsb (strictEqStr status) failureStatuses) eqn:Hfail.
  { apply existsb_exists in Hfail as (f & Hin & Hf). apply strictEqStr_true in Hf.
    subst status. do 2 right; left. exists run, f. do 3 (split; [assumption|]). split.
    - apply client_turn_failed; assumption.
    - apply server_turn_failed; assumption. }
  left. split.
  - apply client_turn_pending with (run := run) (status := status); auto.
    now apply unrecognized_of_tests.
  - apply server_turn_pending with (run := run) (status := status); auto.
    now apply unrecognized_of_tests.
Qed.

End SideBySide.

(** C6, as stated, fails on a timeout: the run stays RUNNING, replies are
    immediate and every timer fires one millisecond late, so that both loops
    issue the same 150 requests at the same times and give up in the same
    world, 300150 ms after the start; the client's error says
    "Actor run timed out - taking longer than expected", the proxy's says
    "Run timed out - taking longer than expected". *)
Lemma timeout_messages_differ :
  exists w',
    ApifyClient.waitForRun Scenario.lateTimers "key" 151 "run_1" 300000 Scenario.world0
    = Some (Throw (newError "Actor run timed out - taking longer than expected"), w')
    /\ Server.pollRun Scenario.lateTimers 151 "key" "run_1" 0 Scenario.world0
       = Some (Throw (newError "Run timed out - taking longer than expected"), w')
    /\ now w' = 300150
    /\ List.length (sent w') = 150%nat
    /\ newError "Actor run timed out - taking longer than expected"
       <> newError "Run timed out - taking longer than expected".
Proof.
  eexists. split; [vm_compute; reflexivity|].
  split; [vm_compute; reflexivity|].
  repeat split. discriminate.
Qed.

(** C6, amended.  Take the client's [waitForRun] with the budget of 300000
    ms and the proxy's [pollRun], started in the same world against the same
    surroundings, in which a record observed as SUCCEEDED names the same
    dataset when read again, the dataset endpoint answers the same whenever
    asked, and no deadline test reads an elapsed time of exactly 300000 ms.
    Then, with the same fuel, the two end alike ([endAlike]), after the same
    deadline test, and which way they end is decided by what the remote has
    answered:
    - the poll observes a record with status SUCCEEDED: both return the same
      outcome (status, finishedAt, stats, dataset, run), built from that
      record and from the dataset that both dataset reads yield;
    - it observes a record with status FAILED, ABORTED or TIMED-OUT: both
      throw the same [Error] "Actor run <status in lower case>: <message>";
    - the answer holds no record to read a status from: both throw the same
      TypeError;
    - the reading of the run record fails with [e]: the proxy throws [e] and
      the client an [Error] "Failed to fetch run details: " followed by the
      message of [e];
    - the deadline test reads more than 300000 ms: both time out, the client
      with "Actor run timed out - taking longer than expected" and the proxy
      with "Run timed out - taking longer than expected";
    - the fuel runs out before the deadline: both are still polling, which
      does not happen with fuel for 150 turns. *)
Theorem pollers_agree_off_the_deadline :
  forall (env : Env) (apiKey runId : string) (fuel : nat) (w0 : World),
    (forall w run,
        observes env apiKey runId w run ->
        get run "status" = Ok (VStr "SUCCEEDED") ->
        exists run',
          observes env apiKey runId (afterFetch env w (runRequest apiKey runId)) run'
          /\ get run' "defaultDatasetId" = get run "defaultDatasetId") ->
    (forall id w w',
        settled (respond env w (itemsRequest apiKey id))
        = settled (respond env w' (itemsRequest apiKey id))) ->
    (forall w, deadlineTest env apiKey runId w0 w -> now w - now w0 <> Server.maxWaitTime) ->
    endAlike env apiKey runId w0
             (ApifyClient.waitForRun env apiKey fuel runId 300000 w0)
             (Server.pollRun env fuel apiKey runId (now w0) w0)
    /\ ((150 <= fuel)%nat ->
        ApifyClient.waitForRun env apiKey fuel runId 300000 w0 <> None
        /\ Server.pollRun env fuel apiKey runId (now w0) w0 <> None).
Proof.
  intros env apiKey runId fuel w0 Hrecord Hdataset Hoff.
  unfold ApifyClient.waitForRun.
  assert (Hall : forall w, deadlineTest env apiKey runId w0 w ->
            endAlike env apiKey runId w0
                     (ApifyClient.waitForRun_loop env apiKey fuel runId (now w0) 300000 w)
                     (Server.pollRun env fuel apiKey runId (now w0) w)
            /\ (ApifyClient.waitForRun_loop env apiKey fuel runId (now w0) 300000 w = None ->
                now w - now w0 + 2000 * Z.of_nat fuel < 300000)).
  { induction fuel as [|fuel IH]; intros w Hw;
      pose proof (Hoff w Hw) as Hne; unfold Server.maxWaitTime in Hne;
      destruct (Z.lt_ge_cases (now w - now w0) 300000) as [Hlt|Hge];
      try (rewrite client_loop_deadline by assumption;
           rewrite server_loop_deadline by (unfold Server.maxWaitTime; lia);
           split; [apply alike_timeout; [assumption|lia] | discriminate]).
    - (* no fuel left, deadline ahead: both are still polling *)
      cbn [ApifyClient.waitForRun_loop Server.pollRun].
      destruct (Z.ltb_spec (now w - now w0) 300000); [|lia].
      destruct (Z.gtb_spec (now w - now w0) Server.maxWaitTime);
        [unfold Server.maxWaitTime in *; lia|].
      split; [now apply alike_unfinished with (w := w) | intros _; lia].
    - (* one more turn on each side *)
      assert (Hle : now w - now w0 <= Server.maxWaitTime)
        by (unfold Server.maxWaitTime; lia).
      destruct (turns_alike env apiKey runId Hrecord Hdataset w)
        as [[Hc Hs]
           | [(run & dataset & w1 & w2 & Ho & Hst & Hcd & Hsd & Hc & Hs)
           | [(run & status & Ho & Hst & Hin & Hc & Hs)
           | [(run & e & Ho & Hst & Hc & Hs)
           | (e & Hf & Hc & Hs)]]]].
      + rewrite (client_loop_continue _ _ _ _ _ _ _ _ Hlt Hc).
        rewrite (server_loop_continue _ _ _ _ _ _ _ Hle Hs).
        destruct (IH (afterSleep env 2000 (afterFetch env w (runRequest apiKey runId))))
          as [Ha Hn]; [now apply test_next with (w := w)|].
        split; [assumption|]. intros E. specialize (Hn E).
        unfold afterSleep, afterFetch in Hn. cbn [now] in Hn. lia.
      + rewrite (client_loop_end _ _ _ _ _ _ _ _ (Ok _) Hlt Hc).
        rewrite (server_loop_end _ _ _ _ _ _ _ (Ok _) Hle Hs).
        split; [now apply alike_succeeded with (w := w) | discriminate].
      + rewrite (client_loop_end _ _ _ _ _ _ _ _ (Throw _) Hlt Hc).
        rewrite (server_loop_end _ _ _ _ _ _ _ (Throw _) Hle Hs).
        split; [now apply alike_failed | discriminate].
      + rewrite (client_loop_end _ _ _ _ _ _ _ _ (Throw e) Hlt Hc).
        rewrite (server_loop_end _ _ _ _ _ _ _ (Throw e) Hle Hs).
        split; [now apply alike_unreadable with (run := run) | discriminate].
      + rewrite (client_loop_end _ _ _ _ _ _ _ _ (Throw _) Hlt Hc).
        rewrite (server_loop_end _ _ _ _ _ _ _ (Throw e) Hle Hs).
        split; [now apply alike_transport | discriminate]. }
  destruct (Hall w0 (test_first _ _ _ _)) as [Ha Hn]. split; [exact Ha|].
  intros Hfuel.
  assert (Hc : ApifyClient.waitForRun_loop env apiKey fuel runId (now w0) 300000 w0 <> None)
    by (intros E; specialize (Hn E); lia).
  split; [exact Hc|].
  intros E. rewrite E in Ha. inversion Ha. congruence.
Qed.

Lemma runningThenSucceeded_record (w : World) (run : value) :
  observes Scenario.runningThenSucceeded "key" "run_1" w run ->
  run = match sent w with
        | [] => Scenario.runRecord "RUNNING" []
        | _ => Scenario.runRecord "SUCCEEDED" [("defaultDatasetId", VStr "ds_1")]
        end.
Proof.
  intros (body & (r & Hs & _ & Hb) & Hd).
  unfold Scenario.runningThenSucceeded in Hs. cbn [respond] in Hs.
  change (Scenario.isRunUrl (runRequest "key" "run_1")) with true in Hs. cbv iota in Hs.
  destruct (sent w); simpl in Hs; injection Hs as <-; simpl in Hb; injection Hb as <-;
    simpl in Hd; now injection Hd as <-.
Qed.

Lemma runningThenSucceeded_stable_record (w : World) (run : value) :
  observes Scenario.runningThenSucceeded "key" "run_1" w run ->
  get run "status" = Ok (VStr "SUCCEEDED") ->
  exists run',
    observes Scenario.runningThenSucceeded "key" "run_1"
             (afterFetch Scenario.runningThenSucceeded w (runRequest "key" "run_1")) run'
    /\ get run' "defaultDatasetId" = get run "defaultDatasetId".
Proof.
  intros Ho Hst. apply runningThenSucceeded_record in Ho. subst run.
  destruct (sent w); [discriminate Hst|].
  eexists. split; [apply runningThenSucceeded_observes; discriminate|reflexivity].
Qed.

Lemma runningThenSucceeded_stable_dataset (id : value) (w w' : World) :
  settled (respond Scenario.runningThenSucceeded w (itemsRequest "key" id))
  = settled (respond Scenario.runningThenSucceeded w' (itemsRequest "key" id)).
Proof. reflexivity. Qed.

Lemma runningThenSucceeded_tests (w : World) :
  deadlineTest Scenario.runningThenSucceeded "key" "run_1" Scenario.world0 w ->
  w = Scenario.world0
  \/ w = afterSleep Scenario.runningThenSucceeded 2000
           (afterFetch Scenario.runningThenSucceeded Scenario.world0 (runRequest "key" "run_1")).
Proof.
  induction 1 as [|w w' _ [-> | ->] Hbody]; [now left| |].
  - right. vm_compute in Hbody. now injection Hbody as <-.
  - vm_compute in Hbody. discriminate Hbody.
Qed.

(** Scenario A, with fuel for 150 turns: the two pollers end alike, and
    neither is left polling. *)
Lemma pollers_agree_off_the_deadline_witness :
  endAlike Scenario.runningThenSucceeded "key" "run_1" Scenario.world0
           (ApifyClient.waitForRun Scenario.runningThenSucceeded "key" 150 "run_1" 300000
                                   Scenario.world0)
           (Server.pollRun Scenario.runningThenSucceeded 150 "key" "run_1" 0 Scenario.world0)
  /\ ApifyClient.waitForRun Scenario.runningThenSucceeded "key" 150 "run_1" 300000
                            Scenario.world0 <> None
  /\ Server.pollRun Scenario.runningThenSucceeded 150 "key" "run_1" 0 Scenario.world0 <> None.
Proof.
  destruct (pollers_agree_off_the_deadline Scenario.runningThenSucceeded "key" "run_1" 150
              Scenario.world0) as [Ha Hn].
  - exact runningThenSucceeded_stable_record.
  - exact runningThenSucceeded_stable_dataset.
  - intros w Hw. destruct (runningThenSucceeded_tests w Hw) as [-> | ->]; discriminate.
  - split; [exact Ha|]. apply Hn. lia.
Defined.

(** * Further properties *)

(** ** Text *)

Lemma stripPrefix_app (p s : string) : stripPrefix p (p ++ s) = Some s.
Proof.
  induction p as [|c p IH]; simpl; [reflexivity|].
  now rewrite Ascii.eqb_refl.
Qed.

Lemma stripPrefix_Some (p s rest : string) :
  stripPrefix p s = Some rest -> s = (p ++ rest)%string.
Proof.
  revert s. induction p as [|c p IH]; intros s; simpl.
  - now intros [= ->].
  - destruct s as [|d s]; [discriminate|].
    destruct (Ascii.eqb_spec c d) as [->|]; [|discriminate].
    intros H. now rewrite (IH _ H).
Qed.

Lemma replaceFirst_prefix (p r s : string) :
  replaceFirst p r (p ++ s) = (r ++ s)%string.
Proof.
  destruct p as [|c p].
  - destruct s; reflexivity.
  - cbn [append replaceFirst]. change (String c (p ++ s)) with (String c p ++ s)%string.
    now rewrite stripPrefix_app.
Qed.

Lemma replaceFirst_empty (p s : string) :
  replaceFirst p EmptyString s = EmptyString -> s = EmptyString \/ s = p.
Proof.
  destruct s as [|c s]; [now left|].
  cbn [replaceFirst]. destruct (stripPrefix p (String c s)) as [rest|] eqn:E.
  - simpl. intros ->. right. apply stripPrefix_Some in E. rewrite E.
    clear. induction p; simpl; congruence.
  - discriminate.
Qed.

Lemma includes_empty (s : string) : includes s EmptyString = true.
Proof. destruct s; reflexivity. Qed.

Lemma includes_app (a t b : string) : includes (a ++ t ++ b) t = true.
Proof.
  induction a as [|c a IH].
  - simpl. destruct (t ++ b)%string eqn:E; cbn [includes];
      rewrite <- E, stripPrefix_app; reflexivity.
  - cbn [append includes]. destruct (stripPrefix t _); [reflexivity|exact IH].
Qed.

Lemma toLowerCase_app (a b : string) :
  toLowerCase (a ++ b) = (toLowerCase a ++ toLowerCase b)%string.
Proof.
  induction a as [|c a IH]; simpl; [reflexivity|]. now rewrite IH.
Qed.

Lemma lowerAscii_idempotent (c : ascii) : lowerAscii (lowerAscii c) = lowerAscii c.
Proof.
  destruct c as [[] [] [] [] [] [] [] []]; reflexivity.
Qed.

Lemma toLowerCase_idempotent (s : string) : toLowerCase (toLowerCase s) = toLowerCase s.
Proof.
  induction s as [|c s IH]; simpl; [reflexivity|].
  now rewrite lowerAscii_idempotent, IH.
Qed.

Lemma lookup_assign_same (k : string) (v : value) (fields : list (string * value)) :
  lookup k (assign k v fields) = v.
Proof.
  induction fields as [|[k' v'] fields IH]; simpl.
  - now rewrite String.eqb_refl.
  - destruct (String.eqb k k') eqn:E; simpl; rewrite ?String.eqb_refl, ?E; auto.
Qed.

Lemma lookup_assign_other (k k' : string) (v : value) (fields : list (string * value)) :
  k' <> k -> lookup k' (assign k v fields) = lookup k' fields.
Proof.
  intros Hne. induction fields as [|[k0 v0] fields IH]; simpl.
  - apply String.eqb_neq in Hne. now rewrite Hne.
  - destruct (String.eqb k k0) eqn:E; simpl.
    + apply String.eqb_eq in E. subst k0.
      apply String.eqb_neq in Hne. now rewrite Hne.
    + now rewrite IH.
Qed.

Lemma assign_not_nil (k : string) (v : value) (fields : list (string * value)) :
  assign k v fields <> [].
Proof.
  destruct fields as [|[k' v'] fields]; simpl; [discriminate|].
  destruct (String.eqb k k'); discriminate.
Qed.

Lemma replaceFirst_absent (p r s : string) :
  includes s p = false -> replaceFirst p r s = s.
Proof.
  induction s as [|c s IH]; cbn [includes replaceFirst].
  - destruct (stripPrefix p EmptyString); [discriminate|reflexivity].
  - destruct (stripPrefix p (String c s)); [discriminate|].
    intros H. now rewrite IH.
Qed.

(** ** The proxy's key check *)

(** X1.  The key travels unchanged from the frontend to the platform: the
    Authorization header the frontend client builds from a key that is not
    empty is accepted by [validateApiKey], which recovers that key; a route
    behind the check then runs with it; and every request the proxy issues
    with it carries the header the frontend sent. *)
Theorem bearer_key_round_trip :
  forall (env : Env) (base apiKey endpoint : string) (options : RequestInit)
         (route : string -> World -> Server.Handled * World)
         (endpoint' : string) (options' : RequestInit) (w : World),
    apiKey <> EmptyString ->
    let header := req_authorization (proxyRequest base apiKey endpoint options) in
    Server.validateApiKey (Some header) = inr apiKey
    /\ Server.guarded (Some header) route w = route apiKey w
    /\ exists req,
         sent (snd (Server.makeApifyRequest env endpoint' apiKey options' w))
         = (now w, req) :: sent w
         /\ req_authorization req = header.
Proof.
  intros env base apiKey endpoint options route endpoint' options' w Hne header.
  assert (Hv : Server.validateApiKey (Some header) = inr apiKey).
  { unfold Server.validateApiKey, header. cbn [option_map req_authorization proxyRequest].
    rewrite replaceFirst_prefix. cbn [append truthy].
    apply String.eqb_neq in Hne. now rewrite Hne. }
  split; [exact Hv|]. split.
  - unfold Server.guarded. now rewrite Hv.
  - rewrite server_makeApifyRequest_eq. eexists. split; reflexivity.
Qed.

Lemma bearer_key_round_trip_witness :
  Server.validateApiKey (Some "Bearer apify_api_123") = inr "apify_api_123"
  /\ Server.guarded (Some "Bearer apify_api_123") (Server.runRoute Scenario.stillRunning "run_1")
                    Scenario.world0
     = Server.runRoute Scenario.stillRunning "run_1" "apify_api_123" Scenario.world0.
Proof.
  destruct (bearer_key_round_trip Scenario.stillRunning Scenario.localProxy "apify_api_123"
              "/apify/runs/run_1" noOptions (Server.runRoute Scenario.stillRunning "run_1")
              "/actor-runs/run_1" noOptions Scenario.world0) as (H1 & H2 & _).
  - discriminate.
  - split; [exact H1|exact H2].
Defined.

(** X2.  [validateApiKey] ends the request, with status 401 and the message
    "API key is required", exactly when the Authorization header is missing,
    empty, or the bare text "Bearer "; any other header is accepted, and one
    that does not contain "Bearer " is taken whole as the key. *)
Theorem key_check_rejections :
  forall (authorization : option string),
    let refusal :=
      Server.ResJson 401 (VObj [("error", VObj [("message", VStr "API key is required")])]) in
    ((exists response, Server.validateApiKey authorization = inl response)
     <-> authorization = None \/ authorization = Some EmptyString
         \/ authorization = Some "Bearer ")
    /\ (forall response, Server.validateApiKey authorization = inl response ->
        response = refusal)
    /\ (forall header,
        authorization = Some header -> header <> EmptyString ->
        includes header "Bearer " = false ->
        Server.validateApiKey authorization = inr header).
Proof.
  intros authorization refusal. unfold Server.validateApiKey.
  destruct authorization as [header|]; cbn [option_map].
  2:{ split; [|split].
      - split; [now left|]. intros _. now eexists.
      - now intros response [= <-].
      - discriminate. }
  destruct (truthy (VStr (replaceFirst "Bearer " EmptyString header))) eqn:Ht; cbn [negb].
  - split; [|split].
    + split; [intros [response H]; discriminate|].
      intros [H | [[= ->] | [= ->]]]; discriminate.
    + discriminate.
    + intros h [= <-] Hne Habs. now rewrite (replaceFirst_absent _ _ _ Habs).
  - assert (Hempty : replaceFirst "Bearer " EmptyString header = EmptyString).
    { simpl in Ht. apply negb_false_iff, String.eqb_eq in Ht. exact Ht. }
    apply replaceFirst_empty in Hempty.
    split; [|split].
    + split; [|intros _; now eexists].
      intros _. right. destruct Hempty as [-> | ->]; auto.
    + now intros response [= <-].
    + intros h [= <-] Hne Habs.
      destruct Hempty as [-> | ->]; [contradiction|discriminate Habs].
Qed.

(** ** The form *)

Lemma trimStart_blank (s : string) :
  trimStart s = EmptyString <-> forallb isSpace (list_ascii_of_string s) = true.
Proof.
  induction s as [|c s IH]; simpl; [tauto|].
  destruct (isSpace c); simpl; [exact IH|]. split; discriminate.
Qed.

Lemma trimEnd_starts (c : ascii) (s : string) :
  isSpace c = false -> trimEnd (String c s) <> EmptyString.
Proof.
  intros Hc. cbn [trimEnd]. rewrite Hc. destruct (trimEnd s); discriminate.
Qed.

(** [trim] leaves nothing exactly of the texts made of white space. *)
Lemma trim_blank (s : string) :
  trim s = EmptyString <-> forallb isSpace (list_ascii_of_string s) = true.
Proof.
  rewrite <- trimStart_blank. unfold trim. split.
  - intros H. destruct (trimStart s) as [|c r] eqn:E; [reflexivity|].
    exfalso. revert H. apply trimEnd_starts.
    clear -E. induction s as [|d s IH]; [discriminate|].
    simpl in E. destruct (isSpace d) eqn:Hd; [auto|]. now injection E as <- _.
  - now intros ->.
Qed.

Lemma unfilled_false (v : value) :
  SchemaForm.unfilled v = false
  <-> truthy v = true /\ forall s, v = VStr s -> trim s <> EmptyString.
Proof.
  unfold SchemaForm.unfilled. rewrite orb_false_iff, negb_false_iff.
  split; intros [Ht Hs]; (split; [exact Ht|]).
  - intros s ->. simpl in Hs. apply negb_false_iff, negb_true_iff in Hs.
    now apply String.eqb_neq.
  - destruct v; try reflexivity. simpl. apply negb_false_iff, negb_true_iff.
    apply String.eqb_neq. now apply Hs.
Qed.

Section Validation.

Variable formData : list (string * value).

Let step (newErrors : list (string * value)) (field : string) : list (string * value) :=
  if SchemaForm.unfilled (lookup field formData) then
    assign field (VStr "This field is required") newErrors
  else newErrors.

Lemma errors_lookup (fields : list string) (acc : list (string * value)) (k : string) :
  lookup k (fold_left step fields acc)
  = if andb (existsb (String.eqb k) fields) (SchemaForm.unfilled (lookup k formData))
    then VStr "This field is required"
    else lookup k acc.
Proof.
  revert acc. induction fields as [|field fields IH]; intros acc; [reflexivity|].
  cbn [fold_left existsb]. rewrite IH. unfold step.
  destruct (String.eqb_spec k field) as [->|Hne]; cbn [orb].
  - destruct (existsb (String.eqb field) fields); cbn [andb];
      destruct (SchemaForm.unfilled (lookup field formData)); try reflexivity.
    apply lookup_assign_same.
  - destruct (andb _ _); [reflexivity|].
    destruct (SchemaForm.unfilled (lookup field formData)); [|reflexivity].
    now apply lookup_assign_other.
Qed.

Lemma errors_nil (fields : list string) (acc : list (string * value)) :
  fold_left step fields acc = []
  <-> acc = [] /\ forall field, In field fields ->
                  SchemaForm.unfilled (lookup field formData) = false.
Proof.
  revert acc. induction fields as [|field fields IH]; intros acc; cbn [fold_left In].
  - split; [intros ->; split; [reflexivity|tauto] | now intros [-> _]].
  - rewrite IH. unfold step.
    destruct (SchemaForm.unfilled (lookup field formData)) eqn:E.
    + split.
      * intros [H _]. now apply assign_not_nil in H.
      * intros [_ H]. specialize (H field (or_introl eq_refl)). congruence.
    + split.
      * intros [-> H]. split; [reflexivity|]. intros f [<- | Hin]; auto.
      * intros [-> H]. split; [reflexivity|]. auto.
Qed.

End Validation.

Lemma validateForm_reports (required : option (list string))
  (formData : list (string * value)) :
  let fields := match required with Some l => l | None => [] end in
  (snd (SchemaForm.validateForm required formData) = true
   <-> forall field, In field fields ->
         SchemaForm.unfilled (lookup field formData) = false)
  /\ (forall k,
      lookup k (fst (SchemaForm.validateForm required formData))
      = if andb (existsb (String.eqb k) fields) (SchemaForm.unfilled (lookup k formData))
        then VStr "This field is required"
        else VUndefined).
Proof.
  intros fields. split.
  - unfold SchemaForm.validateForm. cbn [snd]. fold fields.
    rewrite Nat.eqb_eq, length_zero_iff_nil, errors_nil. tauto.
  - intros k. unfold SchemaForm.validateForm. cbn [fst]. fold fields.
    apply errors_lookup.
Qed.

(** X3.  Take form data of which the texts are ASCII, and required fields
    of which the names are not properties of [Object.prototype].
    [validateForm] accepts the form exactly when every field the schema
    requires holds a truthy value that, if it is a text, is not made of white
    space alone; the errors it sets have the message "This field is required"
    under each required field that fails this, and nothing under any other
    such key.  A required field that is missing, null, 0, false or empty is
    therefore reported, and [handleSubmit] passes the form data on only when
    nothing is reported. *)
Theorem required_fields_validation :
  forall (required : option (list string)) (formData : list (string * value)),
    asciiFields formData = true ->
    forallb ownKey (match required with Some l => l | None => [] end) = true ->
    let fields := match required with Some l => l | None => [] end in
    let errors := fst (SchemaForm.validateForm required formData) in
    let valid := snd (SchemaForm.validateForm required formData) in
    (valid = true
     <-> forall field, In field fields ->
           truthy (lookup field formData) = true
           /\ forall s, lookup field formData = VStr s -> trim s <> EmptyString)
    /\ (forall k,
        ownKey k = true ->
        lookup k errors
        = if andb (existsb (String.eqb k) fields) (SchemaForm.unfilled (lookup k formData))
          then VStr "This field is required"
          else VUndefined)
    /\ (forall field,
        In field fields ->
        In (lookup field formData) [VUndefined; VNull; VNum 0; VBool false; VStr EmptyString] ->
        valid = false /\ lookup field errors = VStr "This field is required")
    /\ fst (SchemaForm.handleSubmit required formData)
       = (if valid then Some formData else None).
Proof.
  intros required formData _ _ fields errors valid.
  destruct (validateForm_reports required formData) as (Hvalid & Herrors).
  fold fields valid in Hvalid. fold fields errors in Herrors.
  split; [|split; [|split]].
  - rewrite Hvalid. split; intros H field Hin; apply unfilled_false; auto.
  - intros k _. apply Herrors.
  - intros field Hin Hval.
    assert (Hun : SchemaForm.unfilled (lookup field formData) = true).
    { simpl in Hval. destruct Hval as [<- | [<- | [<- | [<- | [<- | []]]]]]; reflexivity. }
    split.
    + destruct valid eqn:E; [|reflexivity].
      rewrite (proj1 Hvalid eq_refl field Hin) in Hun. discriminate.
    + rewrite Herrors, Hun, andb_true_r.
      assert (Hex : existsb (String.eqb field) fields = true).
      { apply existsb_exists. exists field. split; [assumption|apply String.eqb_refl]. }
      now rewrite Hex.
  - unfold SchemaForm.handleSubmit, valid.
    destruct (SchemaForm.validateForm required formData) as [e v]. reflexivity.
Qed.

(** A form with a start address, a query of two spaces and no limit, all
    three required: the query and the limit are reported, the address is
    not, and nothing is submitted. *)
Lemma required_fields_validation_witness :
  let required := Some ["startUrl"; "query"; "limit"] in
  let formData := [("startUrl", VStr "https://a.example"); ("query", VStr "  ")] in
  snd (SchemaForm.validateForm required formData) = false
  /\ lookup "limit" (fst (SchemaForm.validateForm required formData))
     = VStr "This field is required"
  /\ lookup "query" (fst (SchemaForm.validateForm required formData))
     = VStr "This field is required"
  /\ lookup "startUrl" (fst (SchemaForm.validateForm required formData)) = VUndefined
  /\ fst (SchemaForm.handleSubmit required formData) = None.
Proof.
  intros required formData.
  destruct (required_fields_validation required formData eq_refl eq_refl)
    as (_ & Herrors & Hmissing & Hsubmit).
  destruct (Hmissing "limit") as [Hvalid Hlimit].
  - simpl. tauto.
  - simpl. tauto.
  - split; [exact Hvalid|]. split; [exact Hlimit|].
    split; [exact (Herrors "query" eq_refl)|].
    split; [exact (Herrors "startUrl" eq_refl)|].
    rewrite Hsubmit, Hvalid. reflexivity.
Defined.

(** X4.  Take keys that are not properties of [Object.prototype] and texts
    that are ASCII.  [updateFormData] stores the value under its key and
    leaves every other field as it was; it blanks the error shown under that
    key (when one is shown) and leaves the errors under other keys; and once
    a required field has been given a value that [validateForm] accepts, a
    validation of the new form data no longer reports that field, while what
    it reports under the other keys is unchanged. *)
Theorem update_then_validate :
  forall (key : string) (v : value) (formData errors : list (string * value))
         (required : option (list string)),
    ownKey key = true ->
    asciiValue v = true ->
    asciiFields formData = true ->
    forallb ownKey (match required with Some l => l | None => [] end) = true ->
    let formData' := fst (SchemaForm.updateFormData key v (formData, errors)) in
    let errors' := snd (SchemaForm.updateFormData key v (formData, errors)) in
    lookup key formData' = v
    /\ (forall k, ownKey k = true -> k <> key -> lookup k formData' = lookup k formData)
    /\ truthy (lookup key errors') = false
    /\ (forall k, ownKey k = true -> k <> key -> lookup k errors' = lookup k errors)
    /\ (SchemaForm.unfilled v = false ->
        lookup key (fst (SchemaForm.validateForm required formData')) = VUndefined)
    /\ (forall k, ownKey k = true -> k <> key ->
        lookup k (fst (SchemaForm.validateForm required formData'))
        = lookup k (fst (SchemaForm.validateForm required formData))).
Proof.
  intros key v formData errors required _ _ _ _ formData' errors'.
  unfold formData', errors', SchemaForm.updateFormData. cbn [fst snd].
  split; [apply lookup_assign_same|].
  split; [intros k _ Hk; now apply lookup_assign_other|].
  split.
  { destruct (truthy (lookup key errors)) eqn:E; [|exact E].
    now rewrite lookup_assign_same. }
  split.
  { intros k _ Hk. destruct (truthy (lookup key errors)); [|reflexivity].
    now apply lookup_assign_other. }
  split.
  - intros Hv.
    rewrite (proj2 (validateForm_reports required _) key).
    rewrite lookup_assign_same, Hv. now rewrite andb_false_r.
  - intros k _ Hk.
    rewrite !(proj2 (validateForm_reports required _) k).
    now rewrite lookup_assign_other.
Qed.

(** A required query that was left blank and is reported: typing a word
    stores it, blanks the error shown, and the next validation accepts the
    field; the limit typed before is untouched. *)
Lemma update_then_validate_witness :
  let formData := [("query", VStr " "); ("limit", VNum 5)] in
  let errors := [("query", VStr "This field is required")] in
  let updated := SchemaForm.updateFormData "query" (VStr "shoes") (formData, errors) in
  lookup "query" (fst updated) = VStr "shoes"
  /\ lookup "limit" (fst updated) = VNum 5
  /\ truthy (lookup "query" (snd updated)) = false
  /\ lookup "query" (fst (SchemaForm.validateForm (Some ["query"]) (fst updated))) = VUndefined.
Proof.
  intros formData errors updated.
  destruct (update_then_validate "query" (VStr "shoes") formData errors (Some ["query"])
              eq_refl eq_refl eq_refl eq_refl)
    as (Hstored & Hothers & Hblank & _ & Hagain & _).
  split; [exact Hstored|].
  split; [apply (Hothers "limit" eq_refl); discriminate|].
  split; [exact Hblank|].
  apply Hagain. reflexivity.
Defined.

(** ** Array fields *)

Lemma split_single (s : string) :
  singleLine s -> split lineFeed s = [s].
Proof.
  unfold singleLine. induction s as [|c s IH]; simpl; intros H; [reflexivity|].
  destruct (Ascii.eqb_spec c lineFeed) as [->|Hc]; [exfalso; apply H; now left|].
  rewrite IH; [reflexivity|]. intros Hin. apply H. now right.
Qed.

Lemma split_line (s rest : string) :
  singleLine s ->
  split lineFeed (s ++ String lineFeed rest) = s :: split lineFeed rest.
Proof.
  unfold singleLine. induction s as [|c s IH]; simpl; intros H.
  - reflexivity.
  - destruct (Ascii.eqb_spec c lineFeed) as [->|Hc]; [exfalso; apply H; now left|].
    rewrite IH; [reflexivity|]. intros Hin. apply H. now right.
Qed.

Lemma split_pieces (s : string) : Forall singleLine (split lineFeed s).
Proof.
  induction s as [|c s IH]; simpl.
  - constructor; [|constructor]. intros [].
  - destruct (Ascii.eqb_spec c lineFeed) as [->|Hc].
    + constructor; [intros []|exact IH].
    + destruct (split lineFeed s) as [|piece pieces].
      * constructor; [|constructor]. simpl. intros [H|[]]. now apply Hc.
      * inversion IH as [|? ? Hp Hps]; subst. constructor; [|exact Hps].
        unfold singleLine. simpl. intros [H | H]; [now apply Hc | now apply Hp].
Qed.

Lemma arrayJoin_texts (sep : string) (items : list string) :
  arrayJoin sep (map VStr items) = String.concat sep items.
Proof.
  unfold arrayJoin, join. rewrite map_map. simpl. now rewrite map_id.
Qed.

Lemma kept_lines (items : list string) :
  Forall (fun s => singleLine s /\ trim s <> EmptyString) items ->
  filter (fun item => truthy (VStr (trim item)))
         (split lineFeed (String.concat (String lineFeed EmptyString) items))
  = items.
Proof.
  assert (Hkeep : forall s, trim s <> EmptyString -> truthy (VStr (trim s)) = true).
  { intros s Hs. simpl. apply negb_true_iff. now apply String.eqb_neq. }
  induction items as [|s items IH]; intros Hall; [reflexivity|].
  inversion Hall as [|? ? [Hline Hs] Hrest]; subst.
  destruct items as [|t items].
  - cbn [String.concat]. rewrite (split_single _ Hline). cbn [filter].
    now rewrite (Hkeep _ Hs).
  - cbn [String.concat]. cbn [append]. rewrite (split_line _ _ Hline).
    cbn [filter]. rewrite (Hkeep _ Hs). f_equal. now apply IH.
Qed.

Lemma asciiText_cons (c : ascii) (s : string) :
  asciiText (String c s) = andb (Nat.ltb (nat_of_ascii c) 128) (asciiText s).
Proof. reflexivity. Qed.

Lemma asciiText_app (s t : string) :
  asciiText (s ++ t) = andb (asciiText s) (asciiText t).
Proof.
  induction s as [|c s IH]; [reflexivity|].
  cbn [append]. rewrite !asciiText_cons, IH. apply andb_assoc.
Qed.

(** The lines of an ASCII text are ASCII texts, and so is the text that
    joins ASCII texts with line feeds. *)
Lemma split_ascii (s : string) :
  asciiText s = true -> Forall (fun piece => asciiText piece = true) (split lineFeed s).
Proof.
  induction s as [|c s IH]; intros H.
  - constructor; [reflexivity|constructor].
  - rewrite asciiText_cons in H. apply andb_true_iff in H as [Hc Hs].
    specialize (IH Hs). cbn [split].
    destruct (Ascii.eqb c lineFeed).
    + constructor; [reflexivity|exact IH].
    + destruct (split lineFeed s) as [|piece pieces].
      * constructor; [|constructor]. now rewrite asciiText_cons, Hc.
      * inversion IH as [|? ? Hp Hps]; subst. constructor; [|exact Hps].
        now rewrite asciiText_cons, Hc.
Qed.

Lemma concat_ascii (items : list string) :
  Forall (fun s => asciiText s = true) items ->
  asciiText (String.concat (String lineFeed EmptyString) items) = true.
Proof.
  induction items as [|s items IH]; intros Hall; [reflexivity|].
  inversion Hall as [|? ? Hs Hrest]; subst.
  destruct items as [|t items]; [exact Hs|].
  change (String.concat (String lineFeed EmptyString) (s :: t :: items))
    with (s ++ String lineFeed EmptyString
            ++ String.concat (String lineFeed EmptyString) (t :: items))%string.
  rewrite !asciiText_app, Hs, (IH Hrest). reflexivity.
Qed.

(** X5.  What an array field shows and what it stores are inverse to each
    other on lists of ASCII texts: for a list whose items are ASCII, contain
    no line feed and are not made of white space alone, the field shows the
    items one per line, and reading that text back gives the same list, in
    the same order. *)
Theorem array_field_round_trip :
  forall (items : list string),
    Forall (fun s => asciiText s = true /\ singleLine s /\ trim s <> EmptyString) items ->
    SchemaForm.arrayText (VArr (map VStr items))
    = VStr (String.concat (String lineFeed EmptyString) items)
    /\ SchemaForm.arrayValue (String.concat (String lineFeed EmptyString) items)
       = VArr (map VStr items).
Proof.
  intros items Hall. split.
  - unfold SchemaForm.arrayText. now rewrite arrayJoin_texts.
  - unfold SchemaForm.arrayValue. rewrite kept_lines; [reflexivity|].
    revert Hall. apply Forall_impl. tauto.
Qed.

Lemma array_field_round_trip_witness :
  SchemaForm.arrayText (VArr [VStr "https://a.example"; VStr "https://b.example"])
  = VStr ("https://a.example" ++ String lineFeed "https://b.example")
  /\ SchemaForm.arrayValue ("https://a.example" ++ String lineFeed "https://b.example")
     = VArr [VStr "https://a.example"; VStr "https://b.example"].
Proof.
  apply (array_field_round_trip ["https://a.example"; "https://b.example"]).
  repeat constructor; try discriminate;
    unfold singleLine; simpl; intuition discriminate.
Defined.

(** X6.  Whatever ASCII text is typed into an array field, the value stored
    has no item made of white space alone and no item with a line feed, and
    it is stable: showing the stored value and reading the shown text (again
    ASCII) back gives the stored value again. *)
Theorem array_field_stable :
  forall (text : string),
    asciiText text = true ->
    exists items shown,
      SchemaForm.arrayValue text = VArr (map VStr items)
      /\ Forall (fun s => asciiText s = true /\ singleLine s /\ trim s <> EmptyString) items
      /\ SchemaForm.arrayText (SchemaForm.arrayValue text) = VStr shown
      /\ asciiText shown = true
      /\ SchemaForm.arrayValue shown = SchemaForm.arrayValue text.
Proof.
  intros text Hascii.
  pose (items := filter (fun item => truthy (VStr (trim item))) (split lineFeed text)).
  assert (Hall : Forall (fun s => asciiText s = true /\ singleLine s /\ trim s <> EmptyString)
                        items).
  { apply Forall_forall. intros s Hin. apply filter_In in Hin as [Hin Hkeep].
    split; [|split].
    - pose proof (split_ascii text Hascii) as Hp. rewrite Forall_forall in Hp. now apply Hp.
    - pose proof (split_pieces text) as Hp. rewrite Forall_forall in Hp. now apply Hp.
    - simpl in Hkeep. apply negb_true_iff in Hkeep. now apply String.eqb_neq. }
  exists items, (String.concat (String lineFeed EmptyString) items).
  change (SchemaForm.arrayValue text) with (VArr (map VStr items)).
  split; [reflexivity|]. split; [exact Hall|].
  unfold SchemaForm.arrayText, SchemaForm.arrayValue.
  rewrite arrayJoin_texts, kept_lines by (revert Hall; apply Forall_impl; tauto).
  split; [reflexivity|]. split; [|reflexivity].
  apply concat_ascii. revert Hall. apply Forall_impl. tauto.
Qed.

(** Two addresses typed with a blank line between them. *)
Lemma array_field_stable_witness :
  let text := ("https://a.example" ++ String lineFeed ("  " ++ String lineFeed
               "https://b.example"))%string in
  exists items shown,
    SchemaForm.arrayValue text = VArr (map VStr items)
    /\ Forall (fun s => asciiText s = true /\ singleLine s /\ trim s <> EmptyString) items
    /\ SchemaForm.arrayText (SchemaForm.arrayValue text) = VStr shown
    /\ asciiText shown = true
    /\ SchemaForm.arrayValue shown = SchemaForm.arrayValue text.
Proof.
  intros text. apply (array_field_stable text). reflexivity.
Defined.

(** ** The actor search *)

(** X7.  The search (on ASCII text) keeps the actors in their order and
    keeps all of them for an empty term; it does not depend on the letter
    case of the term; and it keeps every actor whose name or title contains
    the term, in whatever letter case the term occurs there. *)
Theorem search_ignores_case :
  forall (actors : list App.Actor) (searchTerm : string),
    App.filteredActors actors EmptyString = actors
    /\ App.filteredActors actors (toLowerCase searchTerm)
       = App.filteredActors actors searchTerm
    /\ (forall actor before found after,
        In actor actors ->
        toLowerCase found = toLowerCase searchTerm ->
        App.actor_name actor = (before ++ found ++ after)%string
        \/ App.actor_title actor = (before ++ found ++ after)%string ->
        In actor (App.filteredActors actors searchTerm))
    /\ (forall actor, In actor (App.filteredActors actors searchTerm) -> In actor actors).
Proof.
  intros actors searchTerm. unfold App.filteredActors.
  split; [|split; [|split]].
  - change (toLowerCase EmptyString) with EmptyString.
    induction actors as [|actor actors IH]; [reflexivity|].
    cbn [filter]. rewrite includes_empty. cbn [orb]. now rewrite IH.
  - now rewrite toLowerCase_idempotent.
  - intros actor before found after Hin Hcase Hocc. apply filter_In. split; [exact Hin|].
    apply orb_true_iff. rewrite <- Hcase.
    destruct Hocc as [-> | ->]; [left|right];
      rewrite !toLowerCase_app; apply includes_app.
  - intros actor Hin. now apply filter_In in Hin.
Qed.

(** ** What the clients throw *)

Lemma tryCatch_prefix {A : Type} (m : M A) (prefix : string) (w : World) :
  tryCatch m (fun error => throw (newError (prefix ++ messageOrUnknown error))) w
  = (match fst (m w) with
     | Ok a => Ok a
     | Throw e => Throw (newError (prefix ++ err_message e))
     end, snd (m w)).
Proof.
  unfold tryCatch, throw. destruct (m w) as [[a|e] w']; simpl; [reflexivity|].
  now rewrite messageOrUnknown_message.
Qed.

Lemma bind_throws {A B : Type} (m : M A) (k : A -> M B) (w : World) (e : jsError) :
  fst (m w) = Throw e -> fst (bind m k w) = Throw e.
Proof.
  unfold bind. destruct (m w) as [[a|e'] w']; simpl; intros H; congruence.
Qed.

(** X8.  The methods of the browser-side client that can fail ([getActors],
    [getActorSchema], [runActor], [getRun]) throw nothing but a plain
    [Error] whose message starts with the method's own context; when the
    transport fails, the message is that context followed by the transport's
    message.  [getRunDataset] throws nothing at all. *)
Theorem client_failures_carry_context :
  forall (env : Env) (apiKey actorId runId : string) (input : value) (w : World),
    (forall e, fst (ApifyClient.getActors env apiKey w) = Throw e ->
       exists cause, e = newError ("Failed to fetch actors: " ++ cause))
    /\ (forall e, fst (ApifyClient.getActorSchema env apiKey actorId w) = Throw e ->
       exists cause, e = newError ("Failed to fetch actor schema: " ++ cause))
    /\ (forall e, fst (ApifyClient.runActor env apiKey actorId input w) = Throw e ->
       exists cause, e = newError ("Failed to start actor run: " ++ cause))
    /\ (forall e, fst (ApifyClient.getRun env apiKey runId w) = Throw e ->
       exists cause, e = newError ("Failed to fetch run details: " ++ cause))
    /\ (forall e,
        fst (ApifyClient.makeRequest env apiKey "/acts?my=true&limit=100" noOptions w)
        = Throw e ->
        fst (ApifyClient.getActors env apiKey w)
        = Throw (newError ("Failed to fetch actors: " ++ err_message e)))
    /\ (forall e,
        fst (ApifyClient.makeRequest env apiKey ("/acts/" ++ actorId) noOptions w) = Throw e ->
        fst (ApifyClient.getActorSchema env apiKey actorId w)
        = Throw (newError ("Failed to fetch actor schema: " ++ err_message e)))
    /\ (forall e,
        fst (ApifyClient.makeRequest env apiKey ("/acts/" ++ actorId ++ "/runs")
                                     (mkInit (Some "POST") (Some input)) w) = Throw e ->
        fst (ApifyClient.runActor env apiKey actorId input w)
        = Throw (newError ("Failed to start actor run: " ++ err_message e)))
    /\ (forall e,
        fst (ApifyClient.makeRequest env apiKey ("/actor-runs/" ++ runId) noOptions w)
        = Throw e ->
        fst (ApifyClient.getRun env apiKey runId w)
        = Throw (newError ("Failed to fetch run details: " ++ err_message e)))
    /\ (exists dataset, fst (ApifyClient.getRunDataset env apiKey runId w) = Ok dataset).
Proof.
  intros env apiKey actorId runId input w.
  unfold ApifyClient.getActors, ApifyClient.getActorSchema, ApifyClient.runActor,
    ApifyClient.getRun.
  rewrite !tryCatch_prefix. cbn [fst].
  repeat split.
  1-4: intros e H;
    match type of H with
    | match ?r with _ => _ end = _ =>
        destruct r as [v|e0]; [discriminate|]; injection H as <-;
        eexists; reflexivity
    end.
  1-4: intros e H; now rewrite (bind_throws _ _ _ _ H).
  apply getRunDataset_total.
Qed.

(** X9.  The methods of the frontend client that can fail ([getActors],
    [getActorSchema], [runActor], [getRun], [waitForRun]) throw nothing but a
    plain [Error] whose message starts with the method's own context: the
    [ApiError] of the request layer does not reach their caller, and neither
    does the HTTP status it carries.  [getRunDataset] throws nothing at
    all, and gives the empty array whenever its request fails. *)
Theorem frontend_failures_lose_status :
  forall (env : Env) (apiKey base actorId runId : string) (input : value) (w : World),
    (forall e, fst (ApiClient.getActors env apiKey base w) = Throw e ->
       exists cause, e = newError ("Failed to fetch actors: " ++ cause))
    /\ (forall e, fst (ApiClient.getActorSchema env apiKey base actorId w) = Throw e ->
       exists cause, e = newError ("Failed to fetch actor schema: " ++ cause))
    /\ (forall e, fst (ApiClient.runActor env apiKey base actorId input w) = Throw e ->
       exists cause, e = newError ("Failed to start actor run: " ++ cause))
    /\ (forall e, fst (ApiClient.getRun env apiKey base runId w) = Throw e ->
       exists cause, e = newError ("Failed to fetch run details: " ++ cause))
    /\ (forall e, fst (ApiClient.waitForRun env apiKey base runId w) = Throw e ->
       exists cause, e = newError ("Failed to wait for run completion: " ++ cause))
    /\ (forall e,
        fst (ApiClient.makeRequest env apiKey base ("/apify/runs/" ++ runId ++ "/wait")
                                   noOptions w) = Throw e ->
        fst (ApiClient.waitForRun env apiKey base runId w)
        = Throw (newError ("Failed to wait for run completion: " ++ err_message e)))
    /\ (exists dataset, fst (ApiClient.getRunDataset env apiKey base runId w) = Ok dataset)
    /\ (forall e,
        fst (ApiClient.makeRequest env apiKey base ("/apify/runs/" ++ runId ++ "/dataset")
                                   noOptions w) = Throw e ->
        fst (ApiClient.getRunDataset env apiKey base runId w) = Ok (VArr [])).
Proof.
  intros env apiKey base actorId runId input w.
  unfold ApiClient.getActors, ApiClient.getActorSchema, ApiClient.runActor,
    ApiClient.getRun, ApiClient.waitForRun.
  rewrite !tryCatch_prefix. cbn [fst].
  repeat split.
  1-5: intros e H;
    match type of H with
    | match ?r with _ => _ end = _ =>
        destruct r as [v|e0]; [discriminate|]; injection H as <-;
        eexists; reflexivity
    end.
  - intros e H. now rewrite (bind_throws _ _ _ _ H).
  - unfold ApiClient.getRunDataset, tryCatch.
    destruct (bind _ _ w) as [[v|e] w']; simpl; eauto.
  - intros e H. unfold ApiClient.getRunDataset, tryCatch.
    pose proof (bind_throws _ (fun response => lift (get response "data")) _ _ H) as Hb.
    destruct (bind _ _ w) as [[v|e'] w']; simpl in *; [discriminate|reflexivity].
Qed.

(** X10.  Whatever the frontend's [makeRequest] throws is an [ApiError],
    with one exception.  When [fetch] rejects, it is an [ApiError] with
    status 0 and the message of the rejection (or the rejection itself, were
    that an [ApiError]); when the response is not ok, it is an [ApiError]
    with the HTTP status, or with status 0 if the body is the JSON value
    null; the exception is a response that is ok with a body that is not
    JSON, for which the parser's [SyntaxError] is thrown as it is. *)
Theorem frontend_request_failures :
  forall (env : Env) (apiKey base endpoint : string) (options : RequestInit) (w : World)
         (e : jsError),
    fst (ApiClient.makeRequest env apiKey base endpoint options w) = Throw e ->
    match settled (respond env w (proxyRequest base apiKey endpoint options)) with
    | Rejected e0 =>
        (instanceofApiError e0 = true /\ e = e0)
        \/ (instanceofApiError e0 = false /\ e = ApiClient.newApiError (err_message e0) 0)
    | Resolved r =>
        (resp_ok r = false /\ err_class e = EApiError
         /\ (err_status e = Some (resp_status r)
             \/ (err_status e = Some 0
                 /\ (resp_body r = Json VNull \/ resp_body r = Json VUndefined))))
        \/ (resp_ok r = true
            /\ exists msg, resp_body r = NotJson msg /\ e = mkError ESyntaxError msg None)
    end.
Proof.
  intros env apiKey base endpoint options w e.
  unfold ApiClient.makeRequest, ApiClient.makeRequest_try, ApiClient.makeRequest_catch,
    tryCatch, bind, fetch, lift, throw, ret.
  change (mkRequest _ _ _ _) with (proxyRequest base apiKey endpoint options).
  destruct (settled _) as [e0|r].
  - destruct (instanceofApiError e0) eqn:Ha; simpl; intros [= <-]; [now left|right].
    split; [reflexivity|]. unfold instanceofError. now destruct (err_class e0).
  - destruct (resp_ok r) eqn:Hok; cbn [negb].
    + unfold parseBody. destruct (resp_body r) as [v|msg]; simpl; [discriminate|].
      intros [= <-]. right. split; [reflexivity|]. now exists msg.
    + left. split; [reflexivity|]. revert H. unfold parseBody.
      destruct (resp_body r) as [v|msg]; [destruct v|]; simpl; intros [= <-];
        (split; [reflexivity|]); auto.
Qed.

Lemma frontend_request_failures_witness :
  fst (ApiClient.makeRequest
         (Scenario.always 404 "Not Found" (Scenario.errorBody "Actor not found"))
         "key" Scenario.localProxy "/apify/actors/abc/schema" noOptions Scenario.world0)
  = Throw (ApiClient.newApiError "Actor not found" 404)
  /\ err_class (ApiClient.newApiError "Actor not found" 404) = EApiError
  /\ (err_status (ApiClient.newApiError "Actor not found" 404) = Some 404
      \/ (err_status (ApiClient.newApiError "Actor not found" 404) = Some 0
          /\ (Scenario.errorBody "Actor not found" = Json VNull
              \/ Scenario.errorBody "Actor not found" = Json VUndefined))).
Proof.
  split; [reflexivity|].
  destruct (frontend_request_failures
              (Scenario.always 404 "Not Found" (Scenario.errorBody "Actor not found"))
              "key" Scenario.localProxy "/apify/actors/abc/schema" noOptions Scenario.world0
              (ApiClient.newApiError "Actor not found" 404) eq_refl)
    as [(_ & Hc & Hs) | (Hok & _)]; [|discriminate Hok].
  split; [exact Hc|exact Hs].
Defined.

(** ** The proxy's routes and the browser-side client *)


(** X12.  For listing the actors, starting a run and reading a run, the
    proxy's route and the browser-side client's method correspond on the
    same surroundings: they issue the same request and leave the same
    world; where the method returns a value the route answers 200 with that
    value under [data] (the run id under [data.runId]); and where the method
    throws, the route passes on to [next] the exception whose message the
    method has prefixed with its context. *)
Theorem routes_mirror_client :
  forall (env : Env) (apiKey actorId runId : string) (input : value) (w : World),
    (mirrors "Failed to fetch actors: " (fun actors => actors)
             (fst (ApifyClient.getActors env apiKey w))
             (fst (Server.actorsRoute env apiKey w))
     /\ snd (ApifyClient.getActors env apiKey w) = snd (Server.actorsRoute env apiKey w))
    /\ (mirrors "Failed to start actor run: " (fun id => VObj [("runId", id)])
                (fst (ApifyClient.runActor env apiKey actorId input w))
                (fst (Server.runsRoute env actorId input apiKey w))
        /\ snd (ApifyClient.runActor env apiKey actorId input w)
           = snd (Server.runsRoute env actorId input apiKey w))
    /\ (mirrors "Failed to fetch run details: " (fun run => run)
                (fst (ApifyClient.getRun env apiKey runId w))
                (fst (Server.runRoute env runId apiKey w))
        /\ snd (ApifyClient.getRun env apiKey runId w)
           = snd (Server.runRoute env runId apiKey w)).
Proof.
  intros env apiKey actorId runId input w.
  unfold ApifyClient.getActors, ApifyClient.runActor, ApifyClient.getRun.
  rewrite !tryCatch_prefix.
  unfold Server.actorsRoute, Server.runsRoute, Server.runRoute, Server.handle,
    bind, lift, ret.
  rewrite !apify_makeRequest_eq, !server_makeApifyRequest_eq.
  change Server.mapActor with ApifyClient.mapActor.
  split; [|split].
  - destruct (settled (respond env w _)) as [e|r]; [split; [constructor|reflexivity]|].
    destruct (resp_ok r);
      [|split; [exact (mirrors_failure _ _ (mkError EError _ (Some _)))|reflexivity]].
    destruct (parseBody r) as [body|e]; [|split; [constructor|reflexivity]].
    destruct (get body "data") as [data|e]; [|split; [constructor|reflexivity]].
    destruct (get data "items") as [items|e]; [|split; [constructor|reflexivity]].
    destruct (arrayMap items _ _) as [actors|e]; split; (constructor || reflexivity).
  - destruct (settled (respond env w _)) as [e|r]; [split; [constructor|reflexivity]|].
    destruct (resp_ok r);
      [|split; [exact (mirrors_failure _ _ (mkError EError _ (Some _)))|reflexivity]].
    destruct (parseBody r) as [body|e]; [|split; [constructor|reflexivity]].
    destruct (get body "data") as [data|e]; [|split; [constructor|reflexivity]].
    destruct (get data "id") as [id|e]; split; (constructor || reflexivity).
  - destruct (settled (respond env w _)) as [e|r]; [split; [constructor|reflexivity]|].
    destruct (resp_ok r);
      [|split; [exact (mirrors_failure _ _ (mkError EError _ (Some _)))|reflexivity]].
    destruct (parseBody r) as [body|e]; [|split; [constructor|reflexivity]].
    destruct (get body "data") as [data|e]; split; (constructor || reflexivity).
Qed.

(** X13.  The proxy's schema route against the browser-side client's
    [getActorSchema], on the same remote, by what the remote answers to the
    request for the definition.
    - The definition is read and holds a schema (a truthy [inputSchema]
      under [defaultRunOptions]): the route answers 200 with the schema
      under [data], the method returns the schema.
    - The definition is read and holds no schema: the route answers 404 with
      the message "No input schema found for this actor" (it does not pass
      an error to [next]), the method throws "Failed to fetch actor schema:
      No input schema found for this actor".
    - The transport throws [e], or the answer holds no definition so that
      reading it throws [e]: the route passes [e] to [next], the method
      throws "Failed to fetch actor schema: " followed by the message of
      [e].
    In each case the route leaves the world the one request leaves.  And a
    frontend client that receives the 404 of the second case throws the very
    error of the browser-side client. *)
Theorem schema_route_mirrors_client :
  forall (env : Env) (apiKey actorId : string) (w : World),
    let missing := "No input schema found for this actor" in
    let refusal := VObj [("error", VObj [("message", VStr missing)])] in
    let req := platformRequest apiKey ("/acts/" ++ actorId) noOptions in
    (forall body definition options,
        answersJson env w req body ->
        get body "data" = Ok definition ->
        get definition "defaultRunOptions" = Ok options ->
        (truthy (getOpt options "inputSchema") = true ->
         Server.schemaRoute env apiKey actorId w
         = (Server.ResJson 200 (VObj [("data", getOpt options "inputSchema")]),
            afterFetch env w req)
         /\ fst (ApifyClient.getActorSchema env apiKey actorId w)
            = Ok (getOpt options "inputSchema"))
        /\ (truthy (getOpt options "inputSchema") = false ->
            Server.schemaRoute env apiKey actorId w
            = (Server.ResJson 404 refusal, afterFetch env w req)
            /\ fst (ApifyClient.getActorSchema env apiKey actorId w)
               = Throw (newError ("Failed to fetch actor schema: " ++ missing))))
    /\ (forall e,
        fst (Server.makeApifyRequest env ("/acts/" ++ actorId) apiKey noOptions w) = Throw e ->
        Server.schemaRoute env apiKey actorId w = (Server.Next e, afterFetch env w req)
        /\ fst (ApifyClient.getActorSchema env apiKey actorId w)
           = Throw (newError ("Failed to fetch actor schema: " ++ err_message e)))
    /\ (forall body e,
        answersJson env w req body ->
        andThen (get body "data") (fun definition => get definition "defaultRunOptions")
        = Throw e ->
        Server.schemaRoute env apiKey actorId w = (Server.Next e, afterFetch env w req)
        /\ fst (ApifyClient.getActorSchema env apiKey actorId w)
           = Throw (newError ("Failed to fetch actor schema: " ++ err_message e)))
    /\ (forall (frontend : Env) (base : string) (w' : World) (statusText : string),
        settled (respond frontend w'
                   (proxyRequest base apiKey ("/apify/actors/" ++ actorId ++ "/schema")
                                 noOptions))
        = Resolved (mkResponse 404 statusText (Json refusal)) ->
        fst (ApiClient.getActorSchema frontend apiKey base actorId w')
        = Throw (newError ("Failed to fetch actor schema: " ++ missing))).
Proof.
  intros env apiKey actorId w missing refusal req.
  split; [|split; [|split]].
  - intros body definition options Hans Hd Ho.
    destruct (makeRequest_answersJson env apiKey _ w body Hans) as [Hc Hs].
    unfold ApifyClient.getActorSchema. rewrite tryCatch_prefix.
    unfold Server.schemaRoute, Server.handle, bind.
    rewrite Hc, Hs. unfold lift. rewrite Hd, Ho.
    split; intros ->; split; reflexivity.
  - intros e He.
    unfold ApifyClient.getActorSchema. rewrite tryCatch_prefix.
    unfold Server.schemaRoute, Server.handle, bind.
    rewrite server_makeApifyRequest_eq in He |- *. rewrite apify_makeRequest_eq.
    fold req in He |- *. cbn [fst] in He.
    destruct (settled (respond env w req)) as [e0|r].
    + injection He as ->. split; reflexivity.
    + destruct (resp_ok r).
      * rewrite He. split; reflexivity.
      * injection He as <-. split; reflexivity.
  - intros body e Hans He.
    destruct (makeRequest_answersJson env apiKey _ w body Hans) as [Hc Hs].
    unfold ApifyClient.getActorSchema. rewrite tryCatch_prefix.
    unfold Server.schemaRoute, Server.handle, bind.
    rewrite Hc, Hs. unfold lift.
    destruct (get body "data") as [definition|e0]; simpl in He.
    + rewrite He. split; reflexivity.
    + injection He as ->. split; reflexivity.
  - intros frontend base w' statusText Hs.
    unfold ApiClient.getActorSchema. rewrite tryCatch_prefix.
    unfold bind, ApiClient.makeRequest, ApiClient.makeRequest_try,
      ApiClient.makeRequest_catch, tryCatch, bind, fetch, lift, throw.
    change (mkRequest _ _ _ _)
      with (proxyRequest base apiKey ("/apify/actors/" ++ actorId ++ "/schema") noOptions).
    rewrite Hs. reflexivity.
Qed.

(** A definition without a schema: the route answers 404 where the
    browser-side client throws; a request refused with 401: the route passes
    the error on; and the frontend client that is answered the 404. *)
Lemma schema_route_mirrors_client_witness :
  let lacking := Scenario.always 200 "OK" (Json Scenario.actorWithoutSchema) in
  let refused := Scenario.always 401 "Unauthorized" (Scenario.errorBody "Invalid token") in
  let refusal :=
    VObj [("error", VObj [("message", VStr "No input schema found for this actor")])] in
  (fst (Server.schemaRoute lacking "key" "abc" Scenario.world0) = Server.ResJson 404 refusal
   /\ fst (ApifyClient.getActorSchema lacking "key" "abc" Scenario.world0)
      = Throw (newError "Failed to fetch actor schema: No input schema found for this actor"))
  /\ (fst (Server.schemaRoute refused "key" "abc" Scenario.world0)
      = Server.Next (mkError EError "Invalid token" (Some 401))
      /\ fst (ApifyClient.getActorSchema refused "key" "abc" Scenario.world0)
         = Throw (newError "Failed to fetch actor schema: Invalid token"))
  /\ fst (ApiClient.getActorSchema
            (Scenario.always 404 "Not Found"
               (Scenario.errorBody "No input schema found for this actor"))
            "key" Scenario.localProxy "abc" Scenario.world0)
     = Throw (newError "Failed to fetch actor schema: No input schema found for this actor").
Proof.
  intros lacking refused refusal. split; [|split].
  - destruct (schema_route_mirrors_client lacking "key" "abc" Scenario.world0) as [H _].
    destruct (H Scenario.actorWithoutSchema
                (VObj [("id", VStr "abc"); ("name", VStr "crawler");
                       ("defaultRunOptions", VObj [("build", VStr "latest")])])
                (VObj [("build", VStr "latest")])) as [_ H404].
    + eexists. repeat split; reflexivity.
    + reflexivity.
    + reflexivity.
    + destruct (H404 eq_refl) as [Hroute Hclient]. split; [|exact Hclient].
      now rewrite Hroute.
  - destruct (schema_route_mirrors_client refused "key" "abc" Scenario.world0)
      as (_ & H & _).
    destruct (H (mkError EError "Invalid token" (Some 401)) eq_refl) as [Hroute Hclient].
    split; [|exact Hclient]. now rewrite Hroute.
  - refine (proj2 (proj2 (proj2 (schema_route_mirrors_client Scenario.stillRunning "key" "abc"
                                   Scenario.world0))) _ _ _ "Not Found" _).
    reflexivity.
Defined.

(** ** What the pollers request *)

Section Requests.

Variable P : Request -> Prop.

Lemma extends_refl (w : World) : extends P w w [].
Proof. repeat split; [constructor|lia]. Qed.

Lemma extends_trans (w w' w'' : World) (i1 i2 : list (Z * Request)) :
  extends P w w' i1 -> extends P w' w'' i2 -> extends P w w'' (i2 ++ i1).
Proof.
  intros (Hs1 & Hf1 & Hn1) (Hs2 & Hf2 & Hn2). repeat split.
  - now rewrite Hs2, Hs1, app_assoc.
  - apply Forall_app. now split.
  - lia.
Qed.

Lemma keeps_ret {A} (a : A) : keeps P (ret a).
Proof. intros w. exists []. apply extends_refl. Qed.

Lemma keeps_throw {A} (e : jsError) : keeps P (@throw A e).
Proof. intros w. exists []. apply extends_refl. Qed.

Lemma keeps_lift {A} (r : Result A) : keeps P (lift r).
Proof. intros w. exists []. apply extends_refl. Qed.

Lemma keeps_consoleWarn (prefix text : string) : keeps P (consoleWarn prefix text).
Proof. intros w. exists []. repeat split; [constructor|simpl; lia]. Qed.

Lemma keeps_sleep (env : Env) (ms : Z) : 0 <= ms -> keeps P (sleep env ms).
Proof. intros Hms w. exists []. repeat split; [constructor|simpl; lia]. Qed.

Lemma keeps_fetch (env : Env) (req : Request) : P req -> keeps P (fetch env req).
Proof.
  intros Hreq w. exists [(now w, req)]. unfold fetch.
  destruct (settled (respond env w req)); repeat split; simpl;
    try (constructor; [assumption|constructor]); lia.
Qed.

Lemma keeps_bind {A B} (m : M A) (k : A -> M B) :
  keeps P m -> (forall a, keeps P (k a)) -> keeps P (bind m k).
Proof.
  intros Hm Hk w. unfold bind. destruct (Hm w) as [i1 H1].
  destruct (m w) as [[a|e] w']; simpl in *.
  - destruct (Hk a w') as [i2 H2]. exists (i2 ++ i1)%list. eapply extends_trans; eauto.
  - now exists i1.
Qed.

Lemma keeps_tryCatch {A} (m : M A) (handler : jsError -> M A) :
  keeps P m -> (forall e, keeps P (handler e)) -> keeps P (tryCatch m handler).
Proof.
  intros Hm Hh w. unfold tryCatch. destruct (Hm w) as [i1 H1].
  destruct (m w) as [[a|e] w']; simpl in *.
  - now exists i1.
  - destruct (Hh e w') as [i2 H2]. exists (i2 ++ i1)%list. eapply extends_trans; eauto.
Qed.

End Requests.

Ltac keeps_step :=
  match goal with
  | |- keeps _ (ret _) => apply keeps_ret
  | |- keeps _ (throw _) => apply keeps_throw
  | |- keeps _ (lift _) => apply keeps_lift
  | |- keeps _ (consoleWarn _ _) => apply keeps_consoleWarn
  | |- keeps _ (sleep _ _) =>
      apply keeps_sleep; unfold ApifyClient.pollInterval, Server.pollInterval; lia
  | |- keeps _ (bind _ _) => apply keeps_bind
  | |- keeps _ (tryCatch _ _) => apply keeps_tryCatch
  | |- forall _, keeps _ _ => intro
  | |- keeps _ (if ?b then _ else _) => destruct b
  end.

Section PollerRequests.

Variable env : Env.
Variable apiKey : string.
Variable runId : string.

Lemma keeps_client_request (endpoint : string) :
  pollerRequest apiKey runId (platformRequest apiKey endpoint noOptions) ->
  keeps (pollerRequest apiKey runId) (ApifyClient.makeRequest env apiKey endpoint noOptions).
Proof.
  intros Hreq. unfold ApifyClient.makeRequest.
  apply keeps_bind; [now apply keeps_fetch|]. intros response.
  destruct (negb (resp_ok response)); [apply keeps_throw|apply keeps_lift].
Qed.

Lemma keeps_server_request (endpoint : string) :
  pollerRequest apiKey runId (platformRequest apiKey endpoint noOptions) ->
  keeps (pollerRequest apiKey runId) (Server.makeApifyRequest env endpoint apiKey noOptions).
Proof.
  intros Hreq. unfold Server.makeApifyRequest.
  apply keeps_bind; [now apply keeps_fetch|]. intros response.
  destruct (negb (resp_ok response)); [apply keeps_throw|apply keeps_lift].
Qed.

Lemma run_is_pollerRequest :
  pollerRequest apiKey runId (platformRequest apiKey ("/actor-runs/" ++ runId) noOptions).
Proof. now left. Qed.

Lemma items_is_pollerRequest (datasetId : value) :
  pollerRequest apiKey runId
    (platformRequest apiKey ("/datasets/" ++ toString datasetId ++ "/items?format=json")
                     noOptions).
Proof. right. now exists datasetId. Qed.

Lemma keeps_getRun : keeps (pollerRequest apiKey runId) (ApifyClient.getRun env apiKey runId).
Proof.
  unfold ApifyClient.getRun.
  apply keeps_tryCatch; [apply keeps_bind|]; repeat keeps_step.
  apply keeps_client_request, run_is_pollerRequest.
Qed.

Lemma keeps_getRunDataset :
  keeps (pollerRequest apiKey runId) (ApifyClient.getRunDataset env apiKey runId).
Proof.
  unfold ApifyClient.getRunDataset, ApifyClient.getRunDataset_try.
  apply keeps_tryCatch; [apply keeps_bind; [apply keeps_getRun|]|]; repeat keeps_step.
  apply keeps_client_request, items_is_pollerRequest.
Qed.

Lemma keeps_client_turn :
  keeps (pollerRequest apiKey runId) (ApifyClient.waitForRun_body env apiKey runId).
Proof.
  unfold ApifyClient.waitForRun_body.
  apply keeps_bind; [apply keeps_getRun|]. intros run.
  apply keeps_bind; [apply keeps_lift|]. intros status.
  destruct (strictEqStr status "SUCCEEDED").
  - apply keeps_bind; [apply keeps_getRunDataset|]. repeat keeps_step.
  - repeat keeps_step.
Qed.

Lemma keeps_server_turn :
  keeps (pollerRequest apiKey runId) (Server.pollRun_body env apiKey runId).
Proof.
  unfold Server.pollRun_body, Server.pollRun_dataset, Server.pollRun_dataset_try.
  apply keeps_bind; [apply keeps_server_request, run_is_pollerRequest|]. intros response.
  apply keeps_bind; [apply keeps_lift|]. intros run.
  apply keeps_bind; [apply keeps_lift|]. intros status.
  destruct (strictEqStr status "SUCCEEDED").
  - apply keeps_bind.
    + apply keeps_tryCatch; [apply keeps_bind; [apply keeps_lift|]|]; repeat keeps_step.
      apply keeps_server_request, items_is_pollerRequest.
    + repeat keeps_step.
  - repeat keeps_step.
Qed.

End PollerRequests.

Section PollerLoops.

Variable env : Env.
Variable apiKey : string.
Variable runId : string.

Lemma client_loop_requests (start maxWait : Z) (fuel : nat) :
  forall w r w',
    ApifyClient.waitForRun_loop env apiKey fuel runId start maxWait w = Some (r, w') ->
    exists issued, extends (pollerRequest apiKey runId) w w' issued.
Proof.
  induction fuel as [|fuel IH]; intros w r w'; cbn [ApifyClient.waitForRun_loop];
    destruct (now w - start <? maxWait); try discriminate;
    try (intros [= <- <-]; exists []; apply extends_refl).
  destruct (keeps_client_turn env apiKey runId w) as [i1 H1].
  destruct (ApifyClient.waitForRun_body env apiKey runId w) as [[[v|]|e] w1]; cbn [snd] in H1.
  - intros [= <- <-]. now exists i1.
  - intros Hloop. destruct (IH _ _ _ Hloop) as [i2 H2].
    exists (i2 ++ i1)%list. eapply extends_trans; eauto.
  - intros [= <- <-]. now exists i1.
Qed.

Lemma server_loop_requests (start : Z) (fuel : nat) :
  forall w r w',
    Server.pollRun env fuel apiKey runId start w = Some (r, w') ->
    exists issued, extends (pollerRequest apiKey runId) w w' issued.
Proof.
  induction fuel as [|fuel IH]; intros w r w'; cbn [Server.pollRun];
    destruct (now w - start >? Server.maxWaitTime); try discriminate;
    try (intros [= <- <-]; exists []; apply extends_refl).
  destruct (keeps_server_turn env apiKey runId w) as [i1 H1].
  destruct (Server.pollRun_body env apiKey runId w) as [[[v|]|e] w1]; cbn [snd] in H1.
  - intros [= <- <-]. now exists i1.
  - intros Hloop. destruct (IH _ _ _ Hloop) as [i2 H2].
    exists (i2 ++ i1)%list. eapply extends_trans; eauto.
  - intros [= <- <-]. now exists i1.
Qed.

(** A turn that goes on to the next has let the poll interval pass. *)
Lemma client_turn_advances (w w' : World) :
  ApifyClient.waitForRun_body env apiKey runId w = (Ok None, w') ->
  now w + ApifyClient.pollInterval <= now w'.
Proof.
  pose proof (getRun_world env apiKey runId w) as Hw.
  unfold ApifyClient.waitForRun_body, bind.
  destruct (ApifyClient.getRun env apiKey runId w) as [[run|e] w1]; [|discriminate].
  cbn [snd] in Hw. subst w1. unfold lift at 1.
  destruct (get run "status") as [status|e]; [|discriminate].
  destruct (strictEqStr status "SUCCEEDED").
  - destruct (ApifyClient.getRunDataset _ _ _ _) as [[dataset|e] w2]; [|discriminate].
    unfold lift. destruct (get run "finishedAt"); [|discriminate].
    destruct (get run "stats"); discriminate.
  - destruct (existsb _ _).
    + unfold lift. destruct (callToLowerCase status); [|discriminate].
      destruct (get run "statusMessage"); discriminate.
    + unfold sleep, ret, afterFetch. intros [= <-]. cbn [now]. lia.
Qed.

Lemma server_turn_advances (w w' : World) :
  Server.pollRun_body env apiKey runId w = (Ok None, w') ->
  now w + Server.pollInterval <= now w'.
Proof.
  unfold Server.pollRun_body, bind. rewrite server_makeApifyRequest_eq.
  destruct (match settled _ with Rejected e => _ | Resolved r => _ end)
    as [response|e]; [|discriminate].
  unfold lift at 1. destruct (get response "data") as [run|e]; [|discriminate].
  unfold lift at 1. destruct (get run "status") as [status|e]; [|discriminate].
  destruct (strictEqStr status "SUCCEEDED").
  - destruct (Server.pollRun_dataset _ _ _ _) as [[dataset|e] w2]; [|discriminate].
    unfold lift. destruct (get run "finishedAt"); [|discriminate].
    destruct (get run "stats"); discriminate.
  - destruct (existsb _ _).
    + unfold lift. destruct (callToLowerCase status); [|discriminate].
      destruct (get run "statusMessage"); discriminate.
    + unfold sleep, ret, afterFetch. intros [= <-]. cbn [now]. lia.
Qed.

Lemma client_loop_terminates (start maxWait : Z) (fuel : nat) :
  forall w,
    maxWait - (now w - start) <= ApifyClient.pollInterval * Z.of_nat fuel ->
    exists r w',
      ApifyClient.waitForRun_loop env apiKey fuel runId start maxWait w = Some (r, w').
Proof.
  unfold ApifyClient.pollInterval.
  induction fuel as [|fuel IH]; intros w Hfuel; cbn [ApifyClient.waitForRun_loop];
    destruct (Z.ltb_spec (now w - start) maxWait); try lia; eauto.
  pose proof (client_turn_advances w) as Hadv. unfold ApifyClient.pollInterval in Hadv.
  destruct (ApifyClient.waitForRun_body env apiKey runId w) as [[[v|]|e] w1]; eauto.
  apply IH. specialize (Hadv w1 eq_refl). lia.
Qed.

Lemma server_loop_terminates (start : Z) (fuel : nat) :
  forall w,
    Server.maxWaitTime - (now w - start) < Server.pollInterval * Z.of_nat fuel ->
    exists r w', Server.pollRun env fuel apiKey runId start w = Some (r, w').
Proof.
  unfold Server.pollInterval, Server.maxWaitTime.
  induction fuel as [|fuel IH]; intros w Hfuel; cbn [Server.pollRun];
    destruct (Z.gtb_spec (now w - start) Server.maxWaitTime);
    unfold Server.maxWaitTime in *; try lia; eauto.
  pose proof (server_turn_advances w) as Hadv. unfold Server.pollInterval in Hadv.
  destruct (Server.pollRun_body env apiKey runId w) as [[[v|]|e] w1]; eauto.
  apply IH. specialize (Hadv w1 eq_refl). lia.
Qed.

End PollerLoops.

(** X14.  Whatever the remote answers, and however long its answers take, a
    poller only reads: every request that the client's [waitForRun] or the
    proxy's [pollRun] has issued by the time it ends is the request for the
    run record or a request for the items of a dataset, each a GET without a
    body that carries the key; the requests issued before are still in the
    trace, and the clock has not run backwards. *)
Theorem pollers_only_read :
  forall (env : Env) (apiKey runId : string) (fuel : nat) (maxWaitTime : Z)
         (w w' : World) (r : Result value),
    ApifyClient.waitForRun env apiKey fuel runId maxWaitTime w = Some (r, w')
    \/ Server.pollRun env fuel apiKey runId (now w) w = Some (r, w') ->
    exists issued,
      sent w' = (issued ++ sent w)%list
      /\ Forall (fun t => pollerRequest apiKey runId (snd t) /\ readsOnly apiKey (snd t)) issued
      /\ now w <= now w'.
Proof.
  intros env apiKey runId fuel maxWaitTime w w' r Hrun.
  assert (Hex : exists issued, extends (pollerRequest apiKey runId) w w' issued).
  { destruct Hrun as [Hrun | Hrun].
    - now apply client_loop_requests in Hrun.
    - now apply server_loop_requests in Hrun. }
  destruct Hex as (issued & Hsent & Hall & Hnow). exists issued.
  split; [exact Hsent|]. split; [|exact Hnow].
  eapply Forall_impl; [|exact Hall]. intros t Ht. split; [exact Ht|].
  destruct Ht as [-> | [datasetId ->]]; repeat split.
Qed.

Lemma pollers_only_read_witness :
  exists issued,
    sent (afterSleep Scenario.stillRunning 2000
            (afterFetch Scenario.stillRunning Scenario.world0 (runRequest "key" "run_1")))
    = (issued ++ sent Scenario.world0)%list
    /\ Forall (fun t => pollerRequest "key" "run_1" (snd t) /\ readsOnly "key" (snd t)) issued
    /\ now Scenario.world0
       <= now (afterSleep Scenario.stillRunning 2000
                (afterFetch Scenario.stillRunning Scenario.world0 (runRequest "key" "run_1"))).
Proof.
  apply (pollers_only_read Scenario.stillRunning "key" "run_1" 1 1000 Scenario.world0 _
           (Throw ApifyClient.timeoutError)).
  left. reflexivity.
Defined.

(** X15.  Both pollers end, whatever the remote answers: the client's
    [waitForRun] with a budget of [maxWaitTime] ends within
    [maxWaitTime / 2000] turns of its loop (rounded up), and the proxy's
    [pollRun] within 151 calls. *)
Theorem pollers_terminate :
  forall (env : Env) (apiKey runId : string) (fuel : nat) (maxWaitTime : Z) (w : World),
    (maxWaitTime <= 2000 * Z.of_nat fuel ->
     exists r w', ApifyClient.waitForRun env apiKey fuel runId maxWaitTime w = Some (r, w'))
    /\ ((151 <= fuel)%nat ->
        exists r w', Server.pollRun env fuel apiKey runId (now w) w = Some (r, w')).
Proof.
  intros env apiKey runId fuel maxWaitTime w. split; intros Hfuel.
  - apply client_loop_terminates. unfold ApifyClient.pollInterval. lia.
  - apply server_loop_terminates. unfold Server.pollInterval, Server.maxWaitTime. lia.
Qed.

Lemma pollers_terminate_witness :
  (exists r w',
     ApifyClient.waitForRun Scenario.runningThenSucceeded "key" 150 "run_1" 300000
                            Scenario.world0 = Some (r, w'))
  /\ (exists r w',
        Server.pollRun Scenario.runningThenSucceeded 151 "key" "run_1" 0 Scenario.world0
        = Some (r, w')).
Proof.
  destruct (pollers_terminate Scenario.runningThenSucceeded "key" "run_1" 150 300000
              Scenario.world0) as [Hc _].
  destruct (pollers_terminate Scenario.runningThenSucceeded "key" "run_1" 151 300000
              Scenario.world0) as [_ Hs].
  split; [apply Hc; lia | apply Hs; lia].
Defined.

(** ** What the outcome of polling tells *)


Section Outcomes.

Variable env : Env.
Variable apiKey : string.
Variable runId : string.




End Outcomes.


